(** * Speech feature extraction and training scripts: a shallow embedding

    The development follows [extract_features.py] and the data-loading part
    of [train_models_CNN_LSTM_CNNLSTM.py].  Python values, strings, the file
    system and the calls to the collaborating modules are modelled
    explicitly; [main] is a computation in a small state-and-exception
    monad. *)

From Stdlib Require Import ZArith Ascii DecimalString DecimalZ DecimalPos Lia.
From stdpp Require Import gmap strings list.

(** ** Python values *)

Module Py.

(** The values the scripts pass around as flags and settings.  A float is
    carried by its [repr] text: the scripts do no arithmetic on floats. *)
Inductive val :=
  | None_
  | Bool (b : bool)
  | Int (z : Z)
  | Str (s : string)
  | Float (repr : string).

Definition True_ : val := Bool true.
Definition False_ : val := Bool false.

(** [bool(v)]: the truth value tested by [if v:]. *)
Definition truthy (v : val) : bool :=
  match v with
  | None_ => false
  | Bool b => b
  | Int z => negb (z =? 0)%Z
  | Str s => negb (String.eqb s "")
  | Float r => negb (String.eqb r "0.0" || String.eqb r "-0.0")
  end.

(** [v is False]: identity with the singleton [False]. *)
Definition is_False (v : val) : bool :=
  match v with
  | Bool false => true
  | _ => false
  end.

(** [str(n)] for an int: decimal digits, with a leading minus sign. *)
Definition str_int (z : Z) : string := NilZero.string_of_int (Z.to_int z).

(** A character is [chr(n)] for its code [n] below 256.  Among these,
    Python's white space ([str.isspace]) and its decimal digits. *)
Definition is_space (c : ascii) : bool :=
  let n := nat_of_ascii c in
  ((9 <=? n)%nat && (n <=? 13)%nat) || ((28 <=? n)%nat && (n <=? 32)%nat) ||
  (n =? 133)%nat || (n =? 160)%nat.

Definition is_digit (c : ascii) : bool :=
  let n := nat_of_ascii c in (48 <=? n)%nat && (n <=? 57)%nat.

(** [s.lstrip()] and [s.rstrip()]. *)
Fixpoint lstrip (s : string) : string :=
  match s with
  | EmptyString => EmptyString
  | String c s' => if is_space c then lstrip s' else s
  end.

Fixpoint rstrip (s : string) : string :=
  match s with
  | EmptyString => EmptyString
  | String c s' =>
      match rstrip s' with
      | EmptyString => if is_space c then EmptyString else String c EmptyString
      | r => String c r
      end
  end.

(** The digits of an integer literal, without its underscores: an
    underscore may stand between two digits and nowhere else.
    [after_digit] tells that the character before was no underscore and
    that there was one. *)
Fixpoint digits_of (after_digit : bool) (s : string) : option string :=
  match s with
  | EmptyString => if after_digit then Some EmptyString else None
  | String "_" s' => if after_digit then digits_of false s' else None
  | String c s' => String c <$> digits_of true s'
  end.

(** [int(s)] for a string: white space at both ends is skipped; then comes
    an optional sign and at least one decimal digit, with single underscores
    allowed between digits.  Anything else is a [ValueError], here [None]. *)
Definition int_of_str (s : string) : option Z :=
  match rstrip (lstrip s) with
  | String "+" digits =>
      Z.of_uint <$> (digits_of false digits ≫= NilZero.uint_of_string)
  | String "-" digits =>
      Z.opp <$> (Z.of_uint <$> (digits_of false digits ≫= NilZero.uint_of_string))
  | digits =>
      Z.of_uint <$> (digits_of false digits ≫= NilZero.uint_of_string)
  end.

(** [str(v)]. *)
Definition str (v : val) : string :=
  match v with
  | None_ => "None"
  | Bool true => "True"
  | Bool false => "False"
  | Int z => str_int z
  | Str s => s
  | Float r => r
  end.

(** [c.lower()] on one character, and [s.lower()]. *)
Definition lower_char (c : ascii) : ascii :=
  let n := nat_of_ascii c in
  if (65 <=? n)%nat && (n <=? 90)%nat then ascii_of_nat (n + 32) else c.

Fixpoint lower (s : string) : string :=
  match s with
  | EmptyString => EmptyString
  | String c s' => String (lower_char c) (lower s')
  end.

(** [needle in hay] on strings: [needle] occurs as a substring. *)
Fixpoint str_in (needle hay : string) : bool :=
  String.prefix needle hay ||
  match hay with
  | EmptyString => false
  | String _ hay' => str_in needle hay'
  end.

End Py.

(** ** [extract_features.py]: defaults and derived sizes *)

(** The arguments of [main].  An omitted [num_filters], [timesteps] or
    [context_window] is Python's [None]. *)
Record args := {
  data_path : string;
  feature_type : string;
  num_filters : option Z;
  delta : Py.val;
  dom_freq : Py.val;
  noise : Py.val;
  vad : Py.val;
  timesteps : option Z;
  context_window : option Z;
  noise_path : Py.val;
  limit : Py.val;
}.

(** The local variables [main] has after its first lines. *)
Record settings := {
  s_num_filters : Z;
  s_timesteps : Z;
  s_context_window : Z;
  s_num_feature_columns : Z;
  s_frame_width : Z;
}.

Definition default_num_filters (feature_type : string) (num_filters : option Z) : Z :=
  match num_filters with
  | None => if String.eqb feature_type "stft" then 201 else 40
  | Some n => n
  end.

Definition default_timesteps (timesteps : option Z) : Z :=
  match timesteps with None => 5 | Some t => t end.

Definition default_context_window (context_window : option Z) : Z :=
  match context_window with None => 5 | Some c => c end.

Definition num_feature_columns_of (num_filters : Z) (delta dom_freq : Py.val) : Z :=
  let num_feature_columns :=
    if Py.truthy delta then (num_filters * 3)%Z else num_filters in
  if negb (Py.is_False dom_freq) then (num_feature_columns + 1)%Z
  else num_feature_columns.

Definition set_defaults (a : args) : settings :=
  let num_filters := default_num_filters (feature_type a) (num_filters a) in
  let timesteps := default_timesteps (timesteps a) in
  let context_window := default_context_window (context_window a) in
  {| s_num_filters := num_filters;
     s_timesteps := timesteps;
     s_context_window := context_window;
     s_num_feature_columns := num_feature_columns_of num_filters (delta a) (dom_freq a);
     s_frame_width := (context_window * 2 + 1)%Z |}.

(** ** Timestamps and folder names *)

(** What [datetime.datetime.now()] returns. *)
Record datetime := {
  year : Z;
  month : Z;
  day : Z;
  hour : Z;
  minute : Z;
  second : Z;
  microsecond : Z;
}.

(** ["{}d{}h{}m{}s".format(time.day,time.hour,time.minute,time.second)] *)
Definition get_date (time : datetime) : string :=
  Py.str_int (day time) +:+ "d" +:+ Py.str_int (hour time) +:+ "h" +:+
  Py.str_int (minute time) +:+ "m" +:+ Py.str_int (second time) +:+ "s".

Definition head_folder_beg : string := "./ml_speech_projects/".

(** ["{}_models_{}".format(feature_type,time_stamp)] *)
Definition curr_folder_of (feature_type time_stamp : string) : string :=
  feature_type +:+ "_models_" +:+ time_stamp.

Definition head_folder_of (feature_type time_stamp : string) : string :=
  head_folder_beg +:+ curr_folder_of feature_type time_stamp.

(** The head folder a run started at [time] works in. *)
Definition run_folder (feature_type : string) (time : datetime) : string :=
  head_folder_of feature_type (get_date time).

(** ** Exceptions, files and the state of a run *)

Inductive exn :=
  | ExitApp
  | FeatureExtractionFail
  | IndexError
  | KeyError
  | ValueError
  | OSError
  | SystemExit
  | SplitConsistencyError
  | OtherError (name : string).

Global Instance exn_eq_dec : EqDecision exn.
Proof. solve_decision. Defined.

Inductive result (A : Type) :=
  | Ok (a : A)
  | Raise (e : exn).
Arguments Ok {A} a.
Arguments Raise {A} e.

(** The three index groups of one label: train, validation, test. *)
Definition groups : Type := list nat * list nat * list nat.

(** The arguments of one call of [featfun.save_feats2npy]. *)
Record save_args := {
  sa_labels_class : list string;
  sa_dict_labels_encoded : gmap string nat;
  sa_filename : string;
  sa_max_num : nat;
  sa_dict_class_dataset_index_list : gmap string groups;
  sa_paths : list string;
  sa_labels_wavefile : list string;
  sa_feature_type : string;
  sa_num_filters : Z;
  sa_num_feature_columns : Z;
  sa_timesteps : Z;
  sa_frame_width : Z;
  sa_head_folder : string;
  sa_limit : Py.val;
  sa_delta : Py.val;
  sa_dom_freq : Py.val;
  sa_noise_wavefile : Py.val;
  sa_vad : Py.val;
  sa_dataset_index : nat;
}.

(** A file is a directory, a CSV file with its rows of fields, or an array
    file, which remembers the call that produced it. *)
Inductive file :=
  | Dir
  | Csv (rows : list (list string))
  | Npy (produced_by : save_args).

(** The calls a run makes to its collaborators, in order. *)
Inductive event :=
  | E_makedirs (path : string)
  | E_collect_labels
  | E_input
  | E_create_save_dict_labels_encode
  | E_collect_audio_and_labels
  | E_get_max_samples_per_class
  | E_log_extraction_settings
  | E_log_class4balance
  | E_make_dict_class_index
  | E_get_max_nums_train_val_test
  | E_assign_indices_train_val_test
  | E_check_4_dataset_mixing
  | E_save_feats2npy (dataset_index : nat)
  | E_sys_exit.

Global Instance event_eq_dec : EqDecision event.
Proof. solve_decision. Defined.

Record state := {
  fs : gmap string file;
  trace : list event;
}.

(** ** The monad of the scripts: state and exceptions *)

Definition M (A : Type) : Type := state → result A * state.

Definition ret {A} (a : A) : M A := λ s, (Ok a, s).

Definition raise {A} (e : exn) : M A := λ s, (Raise e, s).

Definition bind {A B} (m : M A) (k : A → M B) : M B :=
  λ s, match m s with
       | (Ok a, s') => k a s'
       | (Raise e, s') => (Raise e, s')
       end.

Notation "x <- m ;; k" := (bind m (λ x, k))
  (at level 100, m at next level, right associativity).
Notation "m ;; k" := (bind m (λ _, k))
  (at level 100, right associativity).

(** [try: m except ...:], with [h e = Some k] when a clause catches [e]. *)
Definition try_except {A} (m : M A) (h : exn → option (M A)) : M A :=
  λ s, match m s with
       | (Ok a, s') => (Ok a, s')
       | (Raise e, s') =>
           match h e with
           | Some k => k s'
           | None => (Raise e, s')
           end
       end.

Definition lift {A} (r : result A) : M A := λ s, (r, s).

Definition emit (e : event) : M unit :=
  λ s, (Ok tt, {| fs := fs s; trace := trace s ++ [e] |}).

(** A call to a collaborator whose answer is [r]. *)
Definition call {A} (e : event) (r : result A) : M A := emit e ;; lift r.

(** [sys.exit()] *)
Definition sys_exit {A} : M A := emit E_sys_exit ;; raise SystemExit.

(** ** The file system *)

(** A path starting with [./] names the same file as the path without. *)
Definition normpath (p : string) : string :=
  match p with
  | String "." (String "/" p') => p'
  | _ => p
  end.

(** [os.path.exists(p)] *)
Definition path_exists (p : string) : M bool :=
  λ s, (Ok (bool_decide (is_Some (fs s !! normpath p))), s).

(** [os.makedirs(p)]: an [OSError] when [p] is there already.  The folder
    above [p] is taken to be there: were it missing, [os.makedirs] would
    make it as well, and were it a regular file, the call would raise. *)
Definition makedirs (p : string) : M unit :=
  λ s, match fs s !! normpath p with
       | Some _ => (Raise OSError, s)
       | None => (Ok tt, {| fs := <[normpath p := Dir]> (fs s);
                            trace := trace s ++ [E_makedirs p] |})
       end.

Definition write_file (p : string) (f : file) : M unit :=
  λ s, (Ok tt, {| fs := <[normpath p := f]> (fs s); trace := trace s |}).

Definition read_file (p : string) : M file :=
  λ s, match fs s !! normpath p with
       | Some f => (Ok f, s)
       | None => (Raise OSError, s)
       end.

(** [l[i]] on a list. *)
Definition index {A} (l : list A) (i : nat) : M A :=
  match l !! i with
  | Some x => ret x
  | None => raise IndexError
  end.

(** ** The collaborating modules *)

(** What the world outside [extract_features.py] answers during one run:
    the clock, the user, the random source, and the functions of
    [organize_speech_data] and [feature_extraction_functions] whose results
    the script only passes on.  Each of these either returns or raises. *)
Record world := {
  now : datetime;
  input_line : string;
  w_collect_labels : result (list string);
  w_create_save_dict_labels_encode : result (gmap string nat);
  w_collect_audio_and_labels : result (list string * list string);
  w_get_max_samples_per_class : result (nat * list (string * nat));
  w_log_class4balance : result unit;
  w_get_max_nums_train_val_test : result (nat * nat * nat);
  w_shuffle : list nat → list nat;
  w_save_feats2npy : nat → result Py.val;
}.

(** The positions [i], counted from [start], at which [labels_wavefile]
    holds [label]. *)
Fixpoint indices_from (start : nat) (label : string) (labels_wavefile : list string)
  : list nat :=
  match labels_wavefile with
  | [] => []
  | x :: rest =>
      if decide (x = label) then start :: indices_from (S start) label rest
      else indices_from (S start) label rest
  end.

(** Modelled from the spec: [orgdata.make_dict_class_index] is not among the
    sources.  "Samples are indexed per-Label as an ordered sequence; index
    position is the join key": each label is mapped to the positions of its
    samples in [labels_wavefile]. *)
Definition make_dict_class_index (labels_class labels_wavefile : list string)
  : gmap string (list nat) :=
  list_to_map ((λ label, (label, indices_from 0 label labels_wavefile)) <$> labels_class).

(** The three contiguous groups cut from a shuffled index list. *)
Definition split_train_val_test (nums : nat * nat * nat) (l : list nat) : groups :=
  let '(train_n, val_n, test_n) := nums in
  (take train_n l, take val_n (drop train_n l), take test_n (drop (train_n + val_n) l)).

(** Modelled from the spec: [orgdata.assign_indices_train_val_test] is not
    among the sources.  The Split Assigner "randomly samples without
    replacement [train_n + val_n + test_n] indices per Label, then partitions
    that sample into three disjoint contiguous-by-assignment groups of the
    target sizes"; the random source is the explicit argument [shuffle]. *)
Definition assign_indices_train_val_test (shuffle : list nat → list nat)
    (labels_class : list string) (dict_class_index : gmap string (list nat))
    (max_nums_train_val_test : nat * nat * nat) : gmap string groups :=
  list_to_map
    (omap (λ label,
             idx ← dict_class_index !! label;
             Some (label, split_train_val_test max_nums_train_val_test (shuffle idx)))
          labels_class).

(** No element of [l1] is in [l2]. *)
Definition disjointb (l1 l2 : list nat) : bool :=
  forallb (λ i, negb (bool_decide (i ∈ l2))) l1.

Definition not_mixed (g : groups) : bool :=
  let '(train_indices, val_indices, test_indices) := g in
  disjointb train_indices val_indices &&
  disjointb train_indices test_indices &&
  disjointb val_indices test_indices.

(** Modelled from the spec: [orgdata.check_4_dataset_mixing] is not among the
    sources.  "Postcondition checked via an explicit cross-Split membership
    test: for every Label, [train ∩ val = ∅], [train ∩ test = ∅],
    [val ∩ test = ∅]; violation raises a fatal consistency error". *)
Fixpoint check_4_dataset_mixing (labels_class : list string)
    (dict_class_dataset_index_list : gmap string groups) : result unit :=
  match labels_class with
  | [] => Ok tt
  | label :: rest =>
      match dict_class_dataset_index_list !! label with
      | None => Raise KeyError
      | Some g =>
          if not_mixed g then check_4_dataset_mixing rest dict_class_dataset_index_list
          else Raise SplitConsistencyError
      end
  end.

(** A field as [csv.writer] writes it: [None] is the empty field, any other
    value its [str]. *)
Definition csv_field (v : Py.val) : string :=
  match v with
  | Py.None_ => ""
  | _ => Py.str v
  end.

(** The rows [writerows] makes of the items of a dictionary. *)
Definition csv_rows (d : list (string * Py.val)) : list (list string) :=
  (λ kv, [kv.1; csv_field kv.2]) <$> d.

Definition features_log : string := "/features_log.csv".

(** Modelled from the spec: [orgdata.log_extraction_settings] is not among
    the sources.  The provenance log is "a key-value record of extraction
    configuration persisted alongside the dataset": one CSV row per key, in
    the file the training script opens. *)
Definition log_extraction_settings (dict_info : list (string * Py.val))
    (head_folder : string) : M unit :=
  emit E_log_extraction_settings ;;
  write_file (head_folder +:+ features_log) (Csv (csv_rows dict_info)).

(** The name an array file gets on disk. *)
Definition npy_name (filename : string) : string := filename +:+ ".npy".

(** Modelled from the spec: [featfun.save_feats2npy] is not among the
    sources.  The Dataset Writer's blocks are "written once to a single array
    file when the Split completes (all-or-nothing commit)": a pass that
    reports success has written the array file of its split under the file
    name it was given, a pass that reports failure or raises has written
    none.  What the pass reports is the world's answer. *)
Definition save_feats2npy (w : world) (a : save_args) : M Py.val :=
  extraction_completed <- call (E_save_feats2npy (sa_dataset_index a))
                               (w_save_feats2npy w (sa_dataset_index a)) ;;
  if Py.truthy extraction_completed
  then write_file (npy_name (sa_filename a)) (Npy a) ;; ret extraction_completed
  else ret extraction_completed.

(** ** [extract_features.py]: [main] *)

(** The variables the data organization leaves for the feature extraction. *)
Record organized := {
  o_labels_class : list string;
  o_dict_labels_encoded : gmap string nat;
  o_train_val_test_filenames : list string;
  o_paths : list string;
  o_labels_wavefile : list string;
  o_max_nums_train_val_test : nat * nat * nat;
  o_dict_class_dataset_index_list : gmap string groups;
}.

(** [if 'y' in correct_labels.lower() or correct_labels.lower() == '': pass
     else: raise ExitApp()] *)
Definition accepts (correct_labels : string) : bool :=
  Py.str_in "y" (Py.lower correct_labels) || String.eqb (Py.lower correct_labels) "".

Definition confirm_labels (correct_labels : string) : M unit :=
  if accepts correct_labels then ret tt else raise ExitApp.

(** ["{}/data_{}/".format(head_folder,i)] and
    [new_path+"{}_features".format(i)] *)
Definition new_path_of (head_folder i : string) : string :=
  head_folder +:+ "/data_" +:+ i +:+ "/".

Definition features_filename (head_folder i : string) : string :=
  new_path_of head_folder i +:+ (i +:+ "_features").

(** The loop [for i in ["train","val","test"]]: the file names and
    directories are collected, each directory is made unless it exists. *)
Fixpoint dataset_dirs (head_folder : string) (names : list string)
    (train_val_test_filenames train_val_test_directories : list string)
  : M (list string * list string) :=
  match names with
  | [] => ret (train_val_test_filenames, train_val_test_directories)
  | i :: rest =>
      let new_path := new_path_of head_folder i in
      let filenames := train_val_test_filenames ++ [features_filename head_folder i] in
      let directories := train_val_test_directories ++ [new_path] in
      try_except (makedirs new_path)
                 (λ e, match e with OSError => Some (ret tt) | _ => None end) ;;
      dataset_dirs head_folder rest filenames directories
  end.

Definition dict_info_feature_extraction (a : args) (s : settings)
    (labels_class : list string) (time_stamp : string) : list (string * Py.val) :=
  [ ("data path", Py.Str (data_path a));
    ("limit", limit a);
    ("features", Py.Str (feature_type a));
    ("num original features", Py.Int (s_num_filters s));
    ("num total features", Py.Int (s_num_feature_columns s));
    ("delta", delta a);
    ("dominant frequency", dom_freq a);
    ("noise", noise a);
    ("beginning silence removal", vad a);
    ("timesteps", Py.Int (s_timesteps s));
    ("context window", Py.Int (s_context_window s));
    ("num classes", Py.Int (Z.of_nat (length labels_class)));
    ("time stamp", Py.Str time_stamp) ].

(** The body of the first [try] block: labels, confirmation, folders, data
    organization, logs, split assignment and its check.  The [print]
    statements are left out. *)
Definition organize (w : world) (a : args) (s : settings)
    (time_stamp head_folder : string) : M organized :=
  labels_class <- call E_collect_labels (w_collect_labels w) ;;
  correct_labels <- call E_input (Ok (input_line w)) ;;
  confirm_labels correct_labels ;;
  dict_labels_encoded <-
    call E_create_save_dict_labels_encode (w_create_save_dict_labels_encode w) ;;
  names <- dataset_dirs head_folder ["train"; "val"; "test"] [] [] ;;
  let train_val_test_filenames := names.1 in
  audio <- call E_collect_audio_and_labels (w_collect_audio_and_labels w) ;;
  let paths := audio.1 in
  let labels_wavefile := audio.2 in
  max_samples <- call E_get_max_samples_per_class (w_get_max_samples_per_class w) ;;
  log_extraction_settings
    (dict_info_feature_extraction a s labels_class time_stamp) head_folder ;;
  call E_log_class4balance (w_log_class4balance w) ;;
  emit E_make_dict_class_index ;;
  let dict_class_index_list := make_dict_class_index labels_class labels_wavefile in
  max_nums_train_val_test <-
    call E_get_max_nums_train_val_test (w_get_max_nums_train_val_test w) ;;
  emit E_assign_indices_train_val_test ;;
  let dict_class_dataset_index_list :=
    assign_indices_train_val_test (w_shuffle w) labels_class dict_class_index_list
                                  max_nums_train_val_test in
  call E_check_4_dataset_mixing
       (check_4_dataset_mixing labels_class dict_class_dataset_index_list) ;;
  ret {| o_labels_class := labels_class;
         o_dict_labels_encoded := dict_labels_encoded;
         o_train_val_test_filenames := train_val_test_filenames;
         o_paths := paths;
         o_labels_wavefile := labels_wavefile;
         o_max_nums_train_val_test := max_nums_train_val_test;
         o_dict_class_dataset_index_list := dict_class_dataset_index_list |}.

(** [max_nums_train_val_test[dataset_index]] *)
Definition max_num_of (max_nums_train_val_test : nat * nat * nat) (dataset_index : nat)
  : M nat :=
  match dataset_index with
  | 0 => ret max_nums_train_val_test.1.1
  | 1 => ret max_nums_train_val_test.1.2
  | 2 => ret max_nums_train_val_test.2
  | _ => raise IndexError
  end.

(** The arguments [main] gives [save_feats2npy] in round [dataset_index]. *)
Definition round_args (a : args) (s : settings) (head_folder : string) (o : organized)
    (filename : string) (max_num dataset_index : nat) : save_args :=
  {| sa_labels_class := o_labels_class o;
     sa_dict_labels_encoded := o_dict_labels_encoded o;
     sa_filename := filename;
     sa_max_num := max_num;
     sa_dict_class_dataset_index_list := o_dict_class_dataset_index_list o;
     sa_paths := o_paths o;
     sa_labels_wavefile := o_labels_wavefile o;
     sa_feature_type := feature_type a;
     sa_num_filters := s_num_filters s;
     sa_num_feature_columns := s_num_feature_columns s;
     sa_timesteps := s_timesteps s;
     sa_frame_width := s_frame_width s;
     sa_head_folder := head_folder;
     sa_limit := limit a;
     sa_delta := delta a;
     sa_dom_freq := dom_freq a;
     sa_noise_wavefile := noise_path a;
     sa_vad := vad a;
     sa_dataset_index := dataset_index |}.

(** The loop [for i in range(3)] of the second [try] block. *)
Fixpoint extraction_rounds (w : world) (a : args) (s : settings) (head_folder : string)
    (o : organized) (rounds : list nat) : M unit :=
  match rounds with
  | [] => ret tt
  | i :: rest =>
      let dataset_index := i in
      filename <- index (o_train_val_test_filenames o) dataset_index ;;
      max_num <- max_num_of (o_max_nums_train_val_test o) dataset_index ;;
      extraction_completed <-
        save_feats2npy w (round_args a s head_folder o filename max_num dataset_index) ;;
      if Py.truthy extraction_completed
      then extraction_rounds w a s head_folder o rest
      else raise FeatureExtractionFail
  end.

(** The second [try] block and the [return False] after it. *)
Definition feature_extraction (w : world) (a : args) (s : settings)
    (head_folder : string) (o : organized) : M bool :=
  try_except (extraction_rounds w a s head_folder o (seq 0 3) ;; ret true)
             (λ e, match e with FeatureExtractionFail => Some (ret false) | _ => None end).

(** The first [try] block with its two [except] clauses. *)
Definition organize_or_exit (w : world) (a : args) (s : settings)
    (time_stamp head_folder : string) : M organized :=
  try_except (organize w a s time_stamp head_folder)
             (λ e, match e with
                   | ExitApp => Some sys_exit
                   | IndexError => Some sys_exit
                   | _ => None
                   end).

Definition main (w : world) (a : args) : M bool :=
  let s := set_defaults a in
  let time_stamp := get_date (now w) in
  let curr_folder := curr_folder_of (feature_type a) time_stamp in
  let head_folder := head_folder_beg +:+ curr_folder in
  there <- path_exists head_folder ;;
  (if negb there then makedirs head_folder else ret tt) ;;
  o <- organize_or_exit w a s time_stamp head_folder ;;
  feature_extraction w a s head_folder o.

(** The folder name a run prints for the training script. *)
Definition curr_folder (w : world) (a : args) : string :=
  curr_folder_of (feature_type a) (get_date (now w)).

(** ** [train_models_CNN_LSTM_CNNLSTM.py]: what [main] reads *)

Module Train.

(** [{rows[0]:rows[1] for rows in reader}] *)
Fixpoint feats_dict_of (rows : list (list string)) (d : gmap string string)
  : result (gmap string string) :=
  match rows with
  | [] => Ok d
  | (k :: v :: _) :: rest => feats_dict_of rest (<[k := v]> d)
  | _ :: _ => Raise IndexError
  end.

(** [csv.reader] over the opened file. *)
Definition read_csv (p : string) : M (list (list string)) :=
  f <- read_file p ;;
  match f with
  | Csv rows => ret rows
  | Dir => raise OSError
  | Npy _ => raise ValueError
  end.

(** [np.load(p)] *)
Definition np_load (p : string) : M save_args :=
  f <- read_file p ;;
  match f with
  | Npy data => ret data
  | Dir => raise OSError
  | Csv _ => raise ValueError
  end.

(** [int(feats_dict[key])] *)
Definition int_at (feats_dict : gmap string string) (key : string) : M Z :=
  match feats_dict !! key with
  | None => raise KeyError
  | Some v =>
      match Py.int_of_str v with
      | Some z => ret z
      | None => raise ValueError
      end
  end.

Definition filename_train (project_head_folder : string) : string :=
  "ml_speech_projects/" +:+ project_head_folder +:+ "/data_train/train_features.npy".

Definition filename_val (project_head_folder : string) : string :=
  "ml_speech_projects/" +:+ project_head_folder +:+ "/data_val/val_features.npy".

Definition filename_test (project_head_folder : string) : string :=
  "ml_speech_projects/" +:+ project_head_folder +:+ "/data_test/test_features.npy".

(** What [main] has read from the run folder. *)
Record loaded := {
  num_labels : Z;
  num_features : Z;
  timesteps : Z;
  context_window : Z;
  frame_width : Z;
  train_data : save_args;
  val_data : save_args;
  test_data : save_args;
}.

Fixpoint make_folders (folders : list string) : M unit :=
  match folders with
  | [] => ret tt
  | folder :: rest =>
      there <- path_exists folder ;;
      (if negb there then makedirs folder else ret tt) ;;
      make_folders rest
  end.

(** The reading steps of [main], in the order of the script; the model is
    built, trained and evaluated by keras between and after the loads, which
    is left out. *)
Definition main (project_head_folder : string) : M loaded :=
  let head_folder_curr_project := head_folder_beg +:+ project_head_folder in
  let graphs_folder := head_folder_curr_project +:+ "/graphs" in
  let models_folder := head_folder_curr_project +:+ "/models" in
  let model_log_folder := head_folder_curr_project +:+ "/model_logs" in
  make_folders [graphs_folder; models_folder; model_log_folder] ;;
  let load_feature_settings_file := head_folder_curr_project +:+ "/features_log.csv" in
  rows <- read_csv load_feature_settings_file ;;
  feats_dict <- lift (feats_dict_of rows ∅) ;;
  num_labels <- int_at feats_dict "num classes" ;;
  num_features <- int_at feats_dict "num total features" ;;
  timesteps <- int_at feats_dict "timesteps" ;;
  context_window <- int_at feats_dict "context window" ;;
  let frame_width := (context_window * 2 + 1)%Z in
  train_data <- np_load (filename_train project_head_folder) ;;
  val_data <- np_load (filename_val project_head_folder) ;;
  test_data <- np_load (filename_test project_head_folder) ;;
  ret {| num_labels := num_labels;
         num_features := num_features;
         timesteps := timesteps;
         context_window := context_window;
         frame_width := frame_width;
         train_data := train_data;
         val_data := val_data;
         test_data := test_data |}.

End Train.

(** ** Notions used in the statements *)

(** The same call with another [dom_freq]. *)
Definition with_dom_freq (a : args) (v : Py.val) : args :=
  {| data_path := data_path a;
     feature_type := feature_type a;
     num_filters := num_filters a;
     delta := delta a;
     dom_freq := v;
     noise := noise a;
     vad := vad a;
     timesteps := timesteps a;
     context_window := context_window a;
     noise_path := noise_path a;
     limit := limit a |}.

(** [num_filters * 3] with [delta], [num_filters] without: the count
    before the dominant frequency is looked at. *)
Definition columns_before_dom_freq (a : args) : Z :=
  (s_num_filters (set_defaults a) * (if Py.truthy (delta a) then 3 else 1))%Z.

(** The call at the end of [extract_features.py]. *)
Definition script_args : args :=
  {| data_path := "./data";
     feature_type := "fbank";
     num_filters := Some 40%Z;
     delta := Py.True_;
     dom_freq := Py.False_;
     noise := Py.True_;
     vad := Py.True_;
     timesteps := Some 5%Z;
     context_window := Some 5%Z;
     noise_path := Py.Str "./data/_background_noise_/doing_the_dishes.wav";
     limit := Py.Float "0.05" |}.

(** A call that names only the data and the feature type. *)
Definition bare_args (feature_type : string) : args :=
  {| data_path := "./data";
     feature_type := feature_type;
     num_filters := None;
     delta := Py.False_;
     dom_freq := Py.False_;
     noise := Py.False_;
     vad := Py.False_;
     timesteps := None;
     context_window := None;
     noise_path := Py.None_;
     limit := Py.None_ |}.


(** Two starting times one month apart. *)
Definition march_7 : datetime :=
  {| year := 2019; month := 3; day := 7;
     hour := 10; minute := 20; second := 30; microsecond := 0 |}.

Definition april_7 : datetime :=
  {| year := 2019; month := 4; day := 7;
     hour := 10; minute := 20; second := 30; microsecond := 0 |}.

(** The state after [if not os.path.exists(p): os.makedirs(p)]. *)
Definition make_dir_state (p : string) (st : state) : state :=
  match fs st !! normpath p with
  | Some _ => st
  | None => {| fs := <[normpath p := Dir]> (fs st);
               trace := trace st ++ [E_makedirs p] |}
  end.

(** The extraction pass of split [i] reports success, or reports failure. *)
Definition pass_succeeds (w : world) (i : nat) : Prop :=
  ∃ v, w_save_feats2npy w i = Ok v ∧ Py.truthy v = true.

Definition pass_fails (w : world) (i : nat) : Prop :=
  ∃ v, w_save_feats2npy w i = Ok v ∧ Py.truthy v = false.

(** An event is a call of [save_feats2npy]. *)
Definition is_save (e : event) : bool :=
  match e with
  | E_save_feats2npy _ => true
  | _ => false
  end.

(** The head folder of a run and the settings it works with. *)
Definition head_folder (w : world) (a : args) : string :=
  head_folder_beg +:+ curr_folder w a.

(** The state after the loop that makes the directories [names]. *)
Definition dirs_state (head_folder : string) (names : list string) (st : state) : state :=
  foldl (λ st i, make_dir_state (new_path_of head_folder i) st) st names.

Definition folders_state (folders : list string) (st : state) : state :=
  foldl (λ st folder, make_dir_state folder st) st folders.

Definition is_makedirs (e : event) : bool :=
  match e with
  | E_makedirs _ => true
  | _ => false
  end.

(** An event of the data organization: neither a call of [save_feats2npy]
    nor [sys.exit()]. *)
Definition organizing (e : event) : bool :=
  negb (is_save e) && negb (bool_decide (e = E_sys_exit)).

(** The rows of the provenance log of a run. *)
Definition log_rows (a : args) (s : settings) (labels_class : list string)
    (time_stamp : string) : list (list string) :=
  csv_rows (dict_info_feature_extraction a s labels_class time_stamp).

(** The calls of the data organization that follow the directory loop. *)
Definition organization_events : list event :=
  [E_collect_audio_and_labels; E_get_max_samples_per_class; E_log_extraction_settings;
   E_log_class4balance; E_make_dict_class_index; E_get_max_nums_train_val_test;
   E_assign_indices_train_val_test; E_check_4_dataset_mixing].

(** The names of the three splits, by [dataset_index]. *)
Definition split_names : list string := ["train"; "val"; "test"].

(** The maximal number of samples of split [i]. *)
Definition max_num_at (nums : nat * nat * nat) (i : nat) : nat :=
  match i with 0 => nums.1.1 | 1 => nums.1.2 | _ => nums.2 end.

(** The arguments of the extraction pass of split [i] in a run that has
    organized [o]. *)
Definition pass_args (a : args) (s : settings) (hf : string) (o : organized) (i : nat)
  : save_args :=
  round_args a s hf o (features_filename hf (nth i split_names ""))
             (max_num_at (o_max_nums_train_val_test o) i) i.

(** The state after an array file is written, after a call is recorded,
    and after a successful pass. *)
Definition saved (sa : save_args) (st : state) : state :=
  {| fs := <[normpath (npy_name (sa_filename sa)) := Npy sa]> (fs st);
     trace := trace st |}.

Definition called (i : nat) (st : state) : state :=
  {| fs := fs st; trace := trace st ++ [E_save_feats2npy i] |}.

Definition pass_done (a : args) (s : settings) (hf : string) (o : organized) (i : nat)
    (st : state) : state :=
  saved (pass_args a s hf o i) (called i st).

(** A path inside the folder of a run, as the file system knows it. *)
Definition run_path (folder suffix : string) : string :=
  "ml_speech_projects/" +:+ folder +:+ suffix.

(** The three groups of a label are pairwise disjoint. *)
Definition groups_disjoint (g : groups) : Prop :=
  g.1.1 ## g.1.2 ∧ g.1.1 ## g.2 ∧ g.1.2 ## g.2.

(** The data organization of the run [main w a] started in the state [st]:
    the first [try] block, entered once the head folder is there. *)
Definition organize_run (w : world) (a : args) (st : state) : result organized * state :=
  organize w a (set_defaults a) (get_date (now w)) (head_folder w a)
           (make_dir_state (head_folder w a) st).

(** [main] itself calls [sys.exit()] during the run. *)
Definition calls_sys_exit (w : world) (a : args) (st : state) : Prop :=
  E_sys_exit ∈ trace (main w a st).2.

(** A state with no files and no calls yet. *)
Definition empty_state : state := {| fs := ∅; trace := [] |}.

(** A small world: two labels with five recordings each, a user who
    answers [answer], a random source [shuffle], and extraction passes that
    report [reports]. *)
Definition demo_world (answer : string) (shuffle : list nat → list nat)
    (reports : nat → result Py.val) : world :=
  {| now := march_7;
     input_line := answer;
     w_collect_labels := Ok ["no"; "yes"];
     w_create_save_dict_labels_encode := Ok (<["no" := 0]> (<["yes" := 1]> ∅));
     w_collect_audio_and_labels :=
       Ok (["./data/no/0.wav"; "./data/yes/0.wav"; "./data/no/1.wav"; "./data/yes/1.wav";
            "./data/no/2.wav"; "./data/yes/2.wav"; "./data/no/3.wav"; "./data/yes/3.wav";
            "./data/no/4.wav"; "./data/yes/4.wav"],
           ["no"; "yes"; "no"; "yes"; "no"; "yes"; "no"; "yes"; "no"; "yes"]);
     w_get_max_samples_per_class := Ok (5, [("no", 5); ("yes", 5)]);
     w_log_class4balance := Ok tt;
     w_get_max_nums_train_val_test := Ok (3, 1, 1);
     w_shuffle := shuffle;
     w_save_feats2npy := reports |}.

(** Every pass reports [True]; the second pass reports [False]. *)
Definition all_succeed : nat → result Py.val := λ _, Ok Py.True_.

Definition second_fails : nat → result Py.val :=
  λ i, Ok (Py.Bool (bool_decide (i ≠ 1))).

(** The second pass raises an exception of its own. *)
Definition second_raises : nat → result Py.val :=
  λ i, if bool_decide (i = 1) then Raise (OtherError "MemoryError") else Ok Py.True_.

(** A broken random source, which repeats one index. *)
Definition repeat_first (l : list nat) : list nat := replicate (length l) 0.

(** ** [train_models_CNN_LSTM_CNNLSTM.py]: the output paths of [main] *)

(** [c.upper()] on one character, and [s.upper()]. *)
Definition upper_char (c : ascii) : ascii :=
  let n := nat_of_ascii c in
  if (97 <=? n)%nat && (n <=? 122)%nat then ascii_of_nat (n - 32) else c.

Fixpoint upper (s : string) : string :=
  match s with
  | EmptyString => EmptyString
  | String c s' => String (upper_char c) (upper s')
  end.

(** ["{}_speech_commands_{}".format(model_type.upper(),time_stamp)] *)
Definition modelname (model_type time_stamp : string) : string :=
  upper model_type +:+ "_speech_commands_" +:+ time_stamp.

(** The output paths [main] builds, in the order of the script: for the
    [CSVLogger] (which is made but is not among the callbacks given to
    [fit_generator]), the checkpoint, the saved model, the two plots and the
    table of the parameters. *)
Definition train_outputs (project_head_folder model_type : string) (time : datetime)
  : list string :=
  let time_stamp := get_date time in
  let head_folder_curr_project := head_folder_beg +:+ project_head_folder in
  let graphs_folder := head_folder_curr_project +:+ "/graphs" in
  let models_folder := head_folder_curr_project +:+ "/models" in
  let model_log_folder := head_folder_curr_project +:+ "/model_logs" in
  let modelname := modelname model_type time_stamp in
  [ model_log_folder +:+ "/" +:+ modelname +:+ "_log.csv";
    ((models_folder +:+ "/checkpoint_") +:+ modelname) +:+ ".h5";
    ((models_folder +:+ "/") +:+ modelname) +:+ ".h5";
    graphs_folder +:+ "/" +:+ modelname +:+ "_LOSS.png";
    graphs_folder +:+ "/" +:+ modelname +:+ "_ACCURACY.png";
    model_log_folder +:+ "/" +:+ modelname +:+ ".csv" ].

(** The model types the training script offers. *)
Definition model_types : list string := ["cnn"; "lstm"; "cnnlstm"].

(** ** Notions used in the further properties *)

(** The characters of a printed integer: the digits and the minus sign. *)
Definition digitish (c : ascii) : bool :=
  match c with
  | "0" | "1" | "2" | "3" | "4" | "5" | "6" | "7" | "8" | "9" | "-" => true
  | _ => false
  end%char.

(** The feature types the extraction script offers. *)
Definition feature_types : list string := ["mfcc"; "fbank"; "stft"].

(** The folders the training script makes when it starts. *)
Definition train_folders (project_head_folder : string) : list string :=
  [ (head_folder_beg +:+ project_head_folder) +:+ "/graphs";
    (head_folder_beg +:+ project_head_folder) +:+ "/models";
    (head_folder_beg +:+ project_head_folder) +:+ "/model_logs" ].

(** A computation that leaves the state as it found it. *)
Definition read_only {A} (m : M A) : Prop := ∀ st, (m st).2 = st.




(** Sequencing of results: the first exception stops the rest. *)
Definition and_then {A B} (r : result A) (k : A → result B) : result B :=
  match r with
  | Ok a => k a
  | Raise e => Raise e
  end.



(** The folder of the projects is there, as a directory; so is the folder
    [ml_speech_projects/<folder>] of a project. *)
Definition projects_folder_there (st : state) : Prop :=
  fs st !! "ml_speech_projects" = Some Dir.

Definition project_folder_there (folder : string) (st : state) : Prop :=
  fs st !! normpath (head_folder_beg +:+ folder) = Some Dir.

(** What is at a path, if anything, is a directory. *)
Definition no_file_at (p : string) (st : state) : Prop :=
  ∀ f, fs st !! normpath p = Some f → f = Dir.

(** A file system with the folder of the projects and nothing in it; one
    with the empty project folder ["run"]; and one where the folder ["run"]
    holds a log and nothing else. *)
Definition projects_only : state :=
  {| fs := {[ "ml_speech_projects" := Dir ]}; trace := [] |}.

Definition bare_run_folder : state :=
  {| fs := <["ml_speech_projects/run" := Dir]> (fs projects_only); trace := [] |}.

Definition tiny_log (rows : list (list string)) : state :=
  {| fs := <[run_path "run" "/features_log.csv" := Csv rows]> (fs bare_run_folder);
     trace := [] |}.

(** The array file of pass [i] of a run in the folder [hf]. *)
Definition npy_key_of (hf : string) (i : nat) : string :=
  normpath (npy_name (features_filename hf (nth i split_names ""))).

(** The arguments [a] with another value for [noise]. *)
Definition with_noise (a : args) (v : Py.val) : args :=
  {| data_path := data_path a;
     feature_type := feature_type a;
     num_filters := num_filters a;
     delta := delta a;
     dom_freq := dom_freq a;
     noise := v;
     vad := vad a;
     timesteps := timesteps a;
     context_window := context_window a;
     noise_path := noise_path a;
     limit := limit a |}.

(** * Properties *)

(** ** Python strings and numbers *)

Section PythonValues.

Local Open Scope Z_scope.

Lemma to_int_not_nil (z : Z) :
  Z.to_int z ≠ Decimal.Pos Decimal.Nil ∧ Z.to_int z ≠ Decimal.Neg Decimal.Nil.
Proof.
  destruct z as [|p|p]; simpl; split; try discriminate;
    intros [= H]; by apply DecimalPos.Unsigned.to_uint_nonnil in H.
Qed.

(** A printed integer never starts with a plus sign. *)
Lemma str_int_no_plus (z : Z) (s : string) : Py.str_int z ≠ String "+" s.
Proof.
  unfold Py.str_int. destruct z as [|p|p]; simpl; try discriminate.
  unfold NilZero.string_of_uint.
  destruct (Pos.to_uint p); simpl; discriminate.
Qed.

Lemma string_of_uint_is_digit (d : Decimal.uint) :
  Forall (λ c, Py.is_digit c = true)
         (String.list_ascii_of_string (NilEmpty.string_of_uint d)).
Proof. induction d; simpl; constructor; done. Qed.

Lemma is_digit_plain (c : ascii) :
  Py.is_digit c = true →
  Py.is_space c = false ∧ c ≠ "_"%char ∧ c ≠ "+"%char ∧ c ≠ "-"%char.
Proof. destruct c as [[] [] [] [] [] [] [] []]; done. Qed.

Lemma lstrip_no_space (s : string) :
  Forall (λ c, Py.is_space c = false) (String.list_ascii_of_string s) →
  Py.lstrip s = s.
Proof. destruct s as [|c s]; [done|]. simpl. intros [-> _]%Forall_cons. done. Qed.

Lemma rstrip_no_space (s : string) :
  Forall (λ c, Py.is_space c = false) (String.list_ascii_of_string s) →
  Py.rstrip s = s.
Proof.
  induction s as [|c s IH]; [done|]. simpl. intros [Hc Hs]%Forall_cons.
  rewrite (IH Hs), Hc. by destruct s.
Qed.

Lemma digits_of_no_underscore (s : string) :
  Forall (λ c, c ≠ "_"%char) (String.list_ascii_of_string s) →
  Py.digits_of true s = Some s ∧ (s ≠ "" → Py.digits_of false s = Some s).
Proof.
  induction s as [|c s IH]; [done|]. simpl. intros [Hc Hs]%Forall_cons.
  destruct (IH Hs) as [-> _].
  destruct c as [[] [] [] [] [] [] [] []]; done.
Qed.

(** [int] reads a string of digits as the number it writes, also behind a
    minus sign. *)
Lemma int_of_str_digits (s : string) (d : Decimal.uint) :
  Forall (λ c, Py.is_digit c = true) (String.list_ascii_of_string s) →
  NilZero.uint_of_string s = Some d →
  Py.int_of_str s = Some (Z.of_uint d) ∧
  Py.int_of_str (String "-" s) = Some (- Z.of_uint d).
Proof.
  intros Hdigits Hd.
  assert (s ≠ "") as Hne by (by intros ->).
  assert (Forall (λ c, Py.is_space c = false) (String.list_ascii_of_string s)) as Hsp
    by (eapply Forall_impl; [exact Hdigits|]; intros c Hc; by apply is_digit_plain).
  assert (Forall (λ c, c ≠ "_"%char) (String.list_ascii_of_string s)) as Hus
    by (eapply Forall_impl; [exact Hdigits|]; intros c Hc; by apply is_digit_plain).
  destruct (digits_of_no_underscore s Hus) as [_ Hdig]. specialize (Hdig Hne).
  unfold Py.int_of_str. split.
  - rewrite lstrip_no_space, rstrip_no_space by done.
    destruct s as [|c s]; [done|].
    apply Forall_cons in Hdigits as [Hc _].
    destruct (is_digit_plain c Hc) as (_ & _ & Hplus & Hminus).
    destruct c as [[] [] [] [] [] [] [] []]; try (by cbv in Hc);
      cbv beta iota; rewrite Hdig; cbv [mbind option_bind]; by rewrite Hd.
  - rewrite lstrip_no_space, rstrip_no_space by (by constructor).
    rewrite Hdig. cbv [mbind option_bind]. by rewrite Hd.
Qed.

(** [int(str(z)) == z] *)
Lemma int_of_str_str_int (z : Z) : Py.int_of_str (Py.str_int z) = Some z.
Proof.
  assert (∀ p, Py.int_of_str (NilEmpty.string_of_uint (Pos.to_uint p)) = Some (Z.pos p) ∧
               Py.int_of_str (String "-" (NilEmpty.string_of_uint (Pos.to_uint p)))
               = Some (Z.neg p)) as Hp.
  { intros p.
    destruct (int_of_str_digits (NilEmpty.string_of_uint (Pos.to_uint p)) (Pos.to_uint p))
      as [H1 H2].
    - apply string_of_uint_is_digit.
    - pose proof (NilZero.usu (Pos.to_uint p) (DecimalPos.Unsigned.to_uint_nonnil p)) as H.
      unfold NilZero.string_of_uint in H.
      pose proof (DecimalPos.Unsigned.to_uint_nonnil p) as Hn.
      by destruct (Pos.to_uint p).
    - unfold Z.of_uint in H1, H2. rewrite DecimalPos.Unsigned.of_to in H1, H2. done. }
  unfold Py.str_int. destruct z as [|p|p]; [done|..]; simpl.
  - unfold NilZero.string_of_uint.
    pose proof (DecimalPos.Unsigned.to_uint_nonnil p) as Hn.
    destruct (Hp p) as [H _]. by destruct (Pos.to_uint p).
  - unfold NilZero.string_of_uint.
    pose proof (DecimalPos.Unsigned.to_uint_nonnil p) as Hn.
    destruct (Hp p) as [_ H]. by destruct (Pos.to_uint p).
Qed.

(** A logged integer is read back by the training script's [int]. *)
Lemma int_of_csv_field (z : Z) : Py.int_of_str (csv_field (Py.Int z)) = Some z.
Proof. apply int_of_str_str_int. Qed.

(** ['y' in s] holds exactly when the character [y] occurs in [s]. *)
Lemma str_in_char (c : ascii) (s : string) :
  Py.str_in (String c "") s = true ↔ c ∈ String.list_ascii_of_string s.
Proof.
  induction s as [|c' s IH]; simpl.
  - split; [done | by intros ?%elem_of_nil].
  - rewrite elem_of_cons, <- IH.
    destruct (ascii_dec c c') as [->|Hne].
    + destruct s; simpl; split; auto.
    + simpl. split; [by right | by intros [?|?]].
Qed.

End PythonValues.

(** ** Defaults and the number of feature columns *)

Section Settings.

Local Open Scope Z_scope.

(** C7: when [num_filters] is omitted the number of filters is 201 for the
    feature type [stft] and 40 for every other feature type; an omitted
    [timesteps] is 5 and an omitted [context_window] is 5. *)
Theorem defaults_of_omitted_arguments (a : args) :
  (num_filters a = None → feature_type a = "stft" →
     s_num_filters (set_defaults a) = 201) ∧
  (num_filters a = None → feature_type a ≠ "stft" →
     s_num_filters (set_defaults a) = 40) ∧
  (timesteps a = None → s_timesteps (set_defaults a) = 5) ∧
  (context_window a = None → s_context_window (set_defaults a) = 5).
Proof.
  unfold set_defaults, default_num_filters, default_timesteps,
    default_context_window; simpl.
  split_and!.
  - by intros -> ->.
  - intros -> Hne. by apply String.eqb_neq in Hne as ->.
  - by intros ->.
  - by intros ->.
Qed.

Lemma defaults_of_omitted_arguments_witness :
  s_num_filters (set_defaults (bare_args "stft")) = 201 ∧
  s_num_filters (set_defaults (bare_args "mfcc")) = 40 ∧
  s_timesteps (set_defaults (bare_args "mfcc")) = 5 ∧
  s_context_window (set_defaults (bare_args "mfcc")) = 5.
Proof.
  destruct (defaults_of_omitted_arguments (bare_args "stft")) as (Hstft & _).
  destruct (defaults_of_omitted_arguments (bare_args "mfcc")) as (_ & Hother & Ht & Hc).
  split_and!.
  - apply Hstft; reflexivity.
  - apply Hother; [reflexivity | discriminate].
  - apply Ht; reflexivity.
  - apply Hc; reflexivity.
Defined.

(** The count is the one before the dominant frequency, plus one unless
    [dom_freq] is the object [False]. *)
Lemma num_feature_columns_unfold (a : args) :
  s_num_feature_columns (set_defaults a) =
  columns_before_dom_freq a + (if Py.is_False (dom_freq a) then 0 else 1).
Proof.
  unfold columns_before_dom_freq, set_defaults, num_feature_columns_of; simpl.
  destruct (Py.truthy (delta a)), (Py.is_False (dom_freq a)); simpl; lia.
Qed.




(** C9: the dominant frequency is tested by identity with [False]: every
    other value of [dom_freq], the falsy [None] and [0] among them, adds
    exactly one column, and only [False] itself leaves the count as it
    is. *)
Theorem dom_freq_is_tested_by_identity (a : args) :
  (dom_freq a ≠ Py.False_ →
     s_num_feature_columns (set_defaults a) = columns_before_dom_freq a + 1) ∧
  (dom_freq a = Py.False_ →
     s_num_feature_columns (set_defaults a) = columns_before_dom_freq a) ∧
  (Py.truthy Py.None_ = false ∧
   s_num_feature_columns (set_defaults (with_dom_freq a Py.None_)) =
   columns_before_dom_freq a + 1) ∧
  (Py.truthy (Py.Int 0) = false ∧
   s_num_feature_columns (set_defaults (with_dom_freq a (Py.Int 0))) =
   columns_before_dom_freq a + 1).
Proof.
  split_and!.
  - intros Hne. rewrite num_feature_columns_unfold.
    destruct (dom_freq a) as [|[]| | |]; simpl; try reflexivity.
    by destruct Hne.
  - intros Heq. rewrite num_feature_columns_unfold, Heq. simpl. lia.
  - reflexivity.
  - by rewrite num_feature_columns_unfold.
  - reflexivity.
  - by rewrite num_feature_columns_unfold.
Qed.

Lemma dom_freq_is_tested_by_identity_witness :
  s_num_feature_columns (set_defaults (with_dom_freq script_args (Py.Str "no"))) = 121 ∧
  s_num_feature_columns (set_defaults script_args) = 120.
Proof.
  destruct (dom_freq_is_tested_by_identity (with_dom_freq script_args (Py.Str "no")))
    as (Hother & _).
  destruct (dom_freq_is_tested_by_identity script_args) as (_ & Hfalse & _).
  split.
  - apply Hother. discriminate.
  - apply Hfalse. reflexivity.
Defined.

End Settings.

(** ** Folder names *)

Section Folders.

(** The folder name of a run depends on the day of the month, the hour,
    the minute and the second of its start, and on nothing else of it. *)
Lemma run_folder_same_clock_fields (feature_type : string) (t1 t2 : datetime) :
  day t1 = day t2 → hour t1 = hour t2 →
  minute t1 = minute t2 → second t1 = second t2 →
  run_folder feature_type t1 = run_folder feature_type t2.
Proof.
  intros Hd Hh Hm Hs. unfold run_folder, get_date. by rewrite Hd, Hh, Hm, Hs.
Qed.

(** C8, at its failing input: two runs of the same feature type that start
    exactly one month apart are given the same head folder. *)
Theorem runs_one_month_apart_share_folder :
  march_7 ≠ april_7 ∧
  run_folder "fbank" march_7 = "./ml_speech_projects/fbank_models_7d10h20m30s" ∧
  run_folder "fbank" april_7 = "./ml_speech_projects/fbank_models_7d10h20m30s".
Proof. split_and!; [discriminate | reflexivity..]. Qed.

End Folders.

(** ** The run, step by step *)

Lemma main_after_head_folder (w : world) (a : args) (st : state) :
  main w a st =
  bind (organize_or_exit w a (set_defaults a) (get_date (now w)) (head_folder w a))
       (feature_extraction w a (set_defaults a) (head_folder w a))
       (make_dir_state (head_folder w a) st).
Proof.
  unfold main, head_folder, curr_folder, make_dir_state, bind at 1 2, path_exists, makedirs.
  destruct (fs st !! _) eqn:Hlook; simpl.
  - reflexivity.
  - simpl in Hlook. rewrite Hlook. reflexivity.
Qed.

Lemma make_dir_state_trace p st :
  ∃ evs, trace (make_dir_state p st) = trace st ++ evs ∧ Forall (λ e, is_save e = false) evs.
Proof.
  unfold make_dir_state. destruct (fs st !! _).
  - exists []. by rewrite app_nil_r.
  - exists [E_makedirs p]. split; [done|]. by repeat constructor.
Qed.


Lemma dataset_dirs_spec hf names fn dirs st :
  dataset_dirs hf names fn dirs st =
  (Ok (fn ++ (features_filename hf <$> names), dirs ++ (new_path_of hf <$> names)),
   dirs_state hf names st).
Proof.
  revert fn dirs st. induction names as [|i names IH]; intros fn dirs st; simpl.
  - by rewrite !app_nil_r.
  - unfold bind at 1, try_except, makedirs, make_dir_state.
    destruct (fs st !! _); simpl; rewrite IH, <- !app_assoc; reflexivity.
Qed.


Lemma dirs_state_trace hf names st :
  ∃ evs, trace (dirs_state hf names st) = trace st ++ evs ∧
         Forall (λ e, is_makedirs e = true) evs.
Proof.
  revert st. induction names as [|i names IH]; intros st; simpl.
  - exists []. by rewrite app_nil_r.
  - destruct (IH (make_dir_state (new_path_of hf i) st)) as (evs & -> & Hevs).
    unfold make_dir_state. destruct (fs st !! _); simpl.
    + by exists evs.
    + exists (E_makedirs (new_path_of hf i) :: evs).
      rewrite <- app_assoc. split; [done|]. by constructor.
Qed.

Lemma dirs_state_npy hf names st k f :
  fs (dirs_state hf names st) !! k = Some (Npy f) → fs st !! k = Some (Npy f).
Proof.
  revert st. induction names as [|i names IH]; intros st; simpl; [done|].
  intros H%IH. revert H. unfold make_dir_state.
  destruct (fs st !! normpath _) eqn:Hl; [done|]. simpl.
  destruct (decide (normpath (new_path_of hf i) = k)) as [->|Hne].
  - by rewrite lookup_insert_eq.
  - by rewrite lookup_insert_ne.
Qed.

Local Arguments dataset_dirs : simpl never.
Local Arguments dirs_state : simpl never.
Local Arguments dict_info_feature_extraction : simpl never.

Ltac run_organize :=
  unfold organize, call, confirm_labels, log_extraction_settings;
  unfold bind, emit, lift, ret, raise, write_file; simpl.

Lemma organize_ok w a s ts hf st o st1 :
  organize w a s ts hf st = (Ok o, st1) →
  ∃ labels dle audio ms nums dirs_evs,
    w_collect_labels w = Ok labels ∧
    accepts (input_line w) = true ∧
    w_create_save_dict_labels_encode w = Ok dle ∧
    w_collect_audio_and_labels w = Ok audio ∧
    w_get_max_samples_per_class w = Ok ms ∧
    w_get_max_nums_train_val_test w = Ok nums ∧
    check_4_dataset_mixing labels
      (assign_indices_train_val_test (w_shuffle w) labels
         (make_dict_class_index labels audio.2) nums) = Ok tt ∧
    o = {| o_labels_class := labels;
           o_dict_labels_encoded := dle;
           o_train_val_test_filenames := features_filename hf <$> ["train"; "val"; "test"];
           o_paths := audio.1;
           o_labels_wavefile := audio.2;
           o_max_nums_train_val_test := nums;
           o_dict_class_dataset_index_list :=
             assign_indices_train_val_test (w_shuffle w) labels
               (make_dict_class_index labels audio.2) nums |} ∧
    fs st1 !! normpath (hf +:+ features_log) = Some (Csv (log_rows a s labels ts)) ∧
    (∀ k f, fs st1 !! k = Some (Npy f) → fs st !! k = Some (Npy f)) ∧
    trace st1 = trace st ++ [E_collect_labels; E_input; E_create_save_dict_labels_encode]
                  ++ dirs_evs ++ organization_events ∧
    Forall (λ e, is_makedirs e = true) dirs_evs.
Proof.
  run_organize.
  destruct (w_collect_labels w) as [labels|e]; simpl; [|done].
  destruct (accepts (input_line w)) eqn:Hacc; simpl; [|done].
  destruct (w_create_save_dict_labels_encode w) as [dle|e]; simpl; [|done].
  rewrite dataset_dirs_spec; simpl.
  destruct (w_collect_audio_and_labels w) as [audio|e]; simpl; [|done].
  destruct (w_get_max_samples_per_class w) as [ms|e]; simpl; [|done].
  destruct (w_log_class4balance w) as [[]|e]; simpl; [|done].
  destruct (w_get_max_nums_train_val_test w) as [nums|e]; simpl; [|done].
  destruct (check_4_dataset_mixing _ _) as [[]|e] eqn:Hcheck; simpl; [|done].
  intros [= <- <-].
  match goal with |- context [dirs_state ?hf ?names ?s] =>
    destruct (dirs_state_trace hf names s) as (devs & Htr & Hdevs) end.
  exists labels, dle, audio, ms, nums, devs.
  split_and!; try done.
  - simpl. by rewrite lookup_insert_eq.
  - simpl. intros k f. destruct (decide (normpath (hf +:+ features_log) = k)) as [->|Hne].
    + by rewrite lookup_insert_eq.
    + rewrite lookup_insert_ne by done. by intros ?%dirs_state_npy.
  - simpl. rewrite Htr. simpl. by rewrite <- !app_assoc.
Qed.

Lemma makedirs_organizing evs :
  Forall (λ e, is_makedirs e = true) evs → Forall (λ e, organizing e = true) evs.
Proof. intros H. eapply Forall_impl; [exact H|]. by intros []. Qed.

Ltac solve_events :=
  eexists; split; [rewrite <- ?app_assoc; reflexivity | repeat constructor].

Lemma organize_any w a s ts hf st r st1 :
  organize w a s ts hf st = (r, st1) →
  (∃ evs, trace st1 = trace st ++ evs ∧ Forall (λ e, organizing e = true) evs) ∧
  (∀ k f, fs st1 !! k = Some (Npy f) → fs st !! k = Some (Npy f)).
Proof.
  assert (∀ (evs : list event) (l : list event), Forall (λ e, organizing e = true) evs →
            Forall (λ e, organizing e = true) l → Forall (λ e, organizing e = true) (evs ++ l))
    as Happ by (intros; by apply Forall_app).
  assert (∀ (m : gmap string file) key k f rows,
            <[key := Csv rows]> m !! k = Some (Npy f) → m !! k = Some (Npy f)) as Hlog.
  { intros m key k f rows. destruct (decide (key = k)) as [->|Hne].
    - by rewrite lookup_insert_eq.
    - by rewrite lookup_insert_ne. }
  run_organize.
  destruct (w_collect_labels w) as [labels|e]; simpl;
    [|intros [= <- <-]; split; [solve_events|done]].
  destruct (accepts (input_line w)) eqn:Hacc; simpl;
    [|intros [= <- <-]; split; [solve_events|done]].
  destruct (w_create_save_dict_labels_encode w) as [dle|e]; simpl;
    [|intros [= <- <-]; split; [solve_events|done]].
  rewrite dataset_dirs_spec; simpl.
  match goal with |- context [dirs_state ?hf ?names ?s] =>
    destruct (dirs_state_trace hf names s) as (devs & Htr & Hdevs%makedirs_organizing);
    pose proof (dirs_state_npy hf names s) as Hnpy end.
  simpl in Htr, Hnpy.
  repeat match goal with
  | |- context [match ?x with Ok _ => _ | Raise _ => _ end] => destruct x as [?|?]; simpl
  end;
  (intros [= <- <-]; simpl; split;
   [ rewrite Htr, <- !app_assoc; simpl; eexists; split; [reflexivity|];
     repeat (apply Forall_cons; split; [reflexivity|]); apply Happ; [done|];
     repeat constructor
   | intros k f; try apply Hnpy; try (intros ?%Hlog; by apply Hnpy) ]).
Qed.

Lemma organize_declined w a s ts hf st labels :
  w_collect_labels w = Ok labels →
  accepts (input_line w) = false →
  organize w a s ts hf st =
  (Raise ExitApp, {| fs := fs st; trace := trace st ++ [E_collect_labels; E_input] |}).
Proof.
  intros Hl Hacc. run_organize. rewrite Hl; simpl. rewrite Hacc; simpl.
  by rewrite <- app_assoc.
Qed.

Lemma organize_accepted w a s ts hf st r st1 labels :
  w_collect_labels w = Ok labels →
  accepts (input_line w) = true →
  organize w a s ts hf st = (r, st1) →
  ∃ evs, trace st1 = trace st ++ [E_collect_labels; E_input;
                                   E_create_save_dict_labels_encode] ++ evs.
Proof.
  intros Hl Hacc. run_organize. rewrite Hl; simpl. rewrite Hacc; simpl.
  destruct (w_create_save_dict_labels_encode w) as [dle|e]; simpl;
    [|intros [= <- <-]; exists []; by rewrite <- !app_assoc].
  rewrite dataset_dirs_spec; simpl.
  match goal with |- context [dirs_state ?hf ?names ?s] =>
    destruct (dirs_state_trace hf names s) as (devs & Htr & _) end.
  simpl in Htr.
  repeat match goal with
  | |- context [match ?x with Ok _ => _ | Raise _ => _ end] => destruct x as [?|?]; simpl
  end;
  (intros [= <- <-]; simpl; rewrite Htr, <- !app_assoc; simpl; eexists; reflexivity).
Qed.

(** The first [try] block: [ExitApp] and [IndexError] end in [sys.exit()],
    everything else is passed on. *)
Lemma organize_or_exit_unfold w a s ts hf st :
  organize_or_exit w a s ts hf st =
  match organize w a s ts hf st with
  | (Ok o, st1) => (Ok o, st1)
  | (Raise e, st1) =>
      if bool_decide (e = ExitApp ∨ e = IndexError)
      then (Raise SystemExit, {| fs := fs st1; trace := trace st1 ++ [E_sys_exit] |})
      else (Raise e, st1)
  end.
Proof.
  unfold organize_or_exit, try_except.
  destruct (organize w a s ts hf st) as [[o|e] st1]; [done|].
  destruct e; reflexivity.
Qed.

Lemma save_feats2npy_eval w sa st :
  save_feats2npy w sa st =
  match w_save_feats2npy w (sa_dataset_index sa) with
  | Ok v => (Ok v, if Py.truthy v then saved sa (called (sa_dataset_index sa) st)
                   else called (sa_dataset_index sa) st)
  | Raise e => (Raise e, called (sa_dataset_index sa) st)
  end.
Proof.
  unfold save_feats2npy, call, bind, emit, lift.
  destruct (w_save_feats2npy w _) as [v|e]; [|done].
  by destruct (Py.truthy v).
Qed.

Lemma extraction_round w a s hf o i rest st :
  i < 3 →
  o_train_val_test_filenames o = features_filename hf <$> split_names →
  extraction_rounds w a s hf o (i :: rest) st =
  match w_save_feats2npy w i with
  | Ok v =>
      if Py.truthy v
      then extraction_rounds w a s hf o rest (pass_done a s hf o i st)
      else (Raise FeatureExtractionFail, called i st)
  | Raise e => (Raise e, called i st)
  end.
Proof.
  intros Hi Hf. simpl. unfold bind at 1, index. rewrite Hf.
  destruct i as [|[|[|i]]]; [..|lia]; simpl;
    unfold bind at 1; simpl; unfold bind at 1; rewrite save_feats2npy_eval; simpl;
    (destruct (w_save_feats2npy w _) as [v|e]; [|done]);
    by destruct (Py.truthy v).
Qed.

Lemma feature_extraction_eval w a s hf o st :
  o_train_val_test_filenames o = features_filename hf <$> split_names →
  feature_extraction w a s hf o st =
  match w_save_feats2npy w 0 with
  | Raise e => if bool_decide (e = FeatureExtractionFail) then (Ok false, called 0 st)
               else (Raise e, called 0 st)
  | Ok v0 =>
    if negb (Py.truthy v0) then (Ok false, called 0 st) else
    let st0 := pass_done a s hf o 0 st in
    match w_save_feats2npy w 1 with
    | Raise e => if bool_decide (e = FeatureExtractionFail) then (Ok false, called 1 st0)
                 else (Raise e, called 1 st0)
    | Ok v1 =>
      if negb (Py.truthy v1) then (Ok false, called 1 st0) else
      let st1 := pass_done a s hf o 1 st0 in
      match w_save_feats2npy w 2 with
      | Raise e => if bool_decide (e = FeatureExtractionFail) then (Ok false, called 2 st1)
                   else (Raise e, called 2 st1)
      | Ok v2 =>
        if negb (Py.truthy v2) then (Ok false, called 2 st1)
        else (Ok true, pass_done a s hf o 2 st1)
      end
    end
  end.
Proof.
  intros Hf. unfold feature_extraction, try_except, bind. simpl seq.
  rewrite extraction_round by (lia || done).
  destruct (w_save_feats2npy w 0) as [v0|e0]; [|by destruct e0].
  destruct (Py.truthy v0); [|done]. simpl negb. cbv iota.
  rewrite extraction_round by (lia || done).
  destruct (w_save_feats2npy w 1) as [v1|e1]; [|by destruct e1].
  destruct (Py.truthy v1); [|done]. simpl negb. cbv iota.
  rewrite extraction_round by (lia || done).
  destruct (w_save_feats2npy w 2) as [v2|e2]; [|by destruct e2].
  by destruct (Py.truthy v2).
Qed.

Lemma str_app_cons c (s1 s2 : string) : String c s1 +:+ s2 = String c (s1 +:+ s2).
Proof. reflexivity. Qed.

Lemma str_app_assoc (s1 s2 s3 : string) : (s1 +:+ s2) +:+ s3 = s1 +:+ s2 +:+ s3.
Proof.
  induction s1 as [|c s1 IH]; [done|]. rewrite !str_app_cons. by rewrite IH.
Qed.

Lemma run_path_inj folder s1 s2 : run_path folder s1 = run_path folder s2 → s1 = s2.
Proof. unfold run_path. by intros ?%(inj _)%(inj _). Qed.

Lemma log_key folder :
  normpath ((head_folder_beg +:+ folder) +:+ features_log) =
  run_path folder "/features_log.csv".
Proof. by rewrite str_app_assoc. Qed.

Lemma npy_key folder name :
  normpath (npy_name (features_filename (head_folder_beg +:+ folder) name)) =
  run_path folder ("/data_" +:+ name +:+ "/" +:+ name +:+ "_features.npy").
Proof.
  unfold npy_name, features_filename, new_path_of.
  rewrite !str_app_assoc. reflexivity.
Qed.

Lemma train_keys folder :
  normpath (Train.filename_train folder) = run_path folder "/data_train/train_features.npy" ∧
  normpath (Train.filename_val folder) = run_path folder "/data_val/val_features.npy" ∧
  normpath (Train.filename_test folder) = run_path folder "/data_test/test_features.npy".
Proof. done. Qed.

Lemma make_dir_state_keeps p st k v :
  fs st !! k = Some v → fs (make_dir_state p st) !! k = Some v.
Proof.
  intros Hk. unfold make_dir_state. destruct (fs st !! normpath p) eqn:Hp; [done|].
  simpl. rewrite lookup_insert_ne; [done|]. intros <-. congruence.
Qed.

Lemma folders_state_keeps folders st k v :
  fs st !! k = Some v → fs (folders_state folders st) !! k = Some v.
Proof.
  revert st. induction folders as [|p folders IH]; intros st Hk; [done|].
  simpl. by apply IH, make_dir_state_keeps.
Qed.

Lemma make_folders_spec folders st :
  Train.make_folders folders st = (Ok tt, folders_state folders st).
Proof.
  revert st. induction folders as [|p folders IH]; intros st; [done|].
  simpl. unfold bind at 1 2, path_exists, makedirs, make_dir_state.
  destruct (fs st !! normpath p) eqn:Hp; simpl.
  - apply IH.
  - rewrite Hp. apply IH.
Qed.

Local Arguments folders_state : simpl never.

Lemma logged_values a s labels ts :
  ∃ d, Train.feats_dict_of (log_rows a s labels ts) ∅ = Ok d ∧
       d !! "num classes" = Some (Py.str_int (Z.of_nat (length labels))) ∧
       d !! "num total features" = Some (Py.str_int (s_num_feature_columns s)) ∧
       d !! "timesteps" = Some (Py.str_int (s_timesteps s)) ∧
       d !! "context window" = Some (Py.str_int (s_context_window s)).
Proof.
  eexists. split; [reflexivity|]. simpl.
  split_and!; repeat (rewrite lookup_insert_ne by done); by rewrite lookup_insert_eq.
Qed.

Lemma int_at_str_int (d : gmap string string) key z st :
  d !! key = Some (Py.str_int z) → Train.int_at d key st = (Ok z, st).
Proof. intros Hk. unfold Train.int_at. by rewrite Hk, int_of_str_str_int. Qed.

Lemma np_load_npy p sa st :
  fs st !! normpath p = Some (Npy sa) → Train.np_load p st = (Ok sa, st).
Proof. intros Hp. unfold Train.np_load, bind, read_file. by rewrite Hp. Qed.

(** The training script reads what a run has left in its folder. *)
Lemma train_main_eval folder a s labels ts p0 p1 p2 st :
  fs st !! run_path folder "/features_log.csv" = Some (Csv (log_rows a s labels ts)) →
  fs st !! run_path folder "/data_train/train_features.npy" = Some (Npy p0) →
  fs st !! run_path folder "/data_val/val_features.npy" = Some (Npy p1) →
  fs st !! run_path folder "/data_test/test_features.npy" = Some (Npy p2) →
  ∃ st', Train.main folder st =
    (Ok {| Train.num_labels := Z.of_nat (length labels);
           Train.num_features := s_num_feature_columns s;
           Train.timesteps := s_timesteps s;
           Train.context_window := s_context_window s;
           Train.frame_width := (s_context_window s * 2 + 1)%Z;
           Train.train_data := p0;
           Train.val_data := p1;
           Train.test_data := p2 |}, st').
Proof.
  intros Hlog H0 H1 H2.
  destruct (logged_values a s labels ts) as (d & Hd & Hn & Hf & Ht & Hc).
  eexists. unfold Train.main.
  unfold bind at 1. rewrite make_folders_spec.
  set (st' := folders_state _ st).
  unfold bind at 1, Train.read_csv, bind at 1, read_file.
  rewrite log_key. unfold st' at 1. erewrite folders_state_keeps by exact Hlog.
  unfold ret at 1, bind at 1, lift. rewrite Hd.
  unfold bind at 1. rewrite (int_at_str_int _ _ _ _ Hn).
  unfold bind at 1. rewrite (int_at_str_int _ _ _ _ Hf).
  unfold bind at 1. rewrite (int_at_str_int _ _ _ _ Ht).
  unfold bind at 1. rewrite (int_at_str_int _ _ _ _ Hc).
  destruct (train_keys folder) as (K0 & K1 & K2).
  unfold bind at 1. rewrite (np_load_npy _ p0)
    by (rewrite K0; by apply folders_state_keeps).
  unfold bind at 1. rewrite (np_load_npy _ p1)
    by (rewrite K1; by apply folders_state_keeps).
  unfold bind at 1. rewrite (np_load_npy _ p2)
    by (rewrite K2; by apply folders_state_keeps).
  reflexivity.
Qed.

Lemma indices_from_ge start label lw i :
  i ∈ indices_from start label lw → start ≤ i.
Proof.
  revert start. induction lw as [|x lw IH]; intros start; simpl.
  - by intros ?%elem_of_nil.
  - destruct (decide (x = label)).
    + intros [->|Hi%IH]%elem_of_cons; lia.
    + intros Hi%IH. lia.
Qed.

Lemma indices_from_NoDup start label lw : NoDup (indices_from start label lw).
Proof.
  revert start. induction lw as [|x lw IH]; intros start; simpl.
  - constructor.
  - destruct (decide (x = label)); [|apply IH].
    constructor; [|apply IH]. intros Hi%indices_from_ge. lia.
Qed.

Lemma indices_from_length start label lw :
  length (indices_from start label lw) = length (filter (λ x, x = label) lw).
Proof.
  revert start. induction lw as [|x lw IH]; intros start; simpl; [done|].
  rewrite filter_cons. destruct (decide (x = label)); simpl; by rewrite IH.
Qed.

Lemma make_dict_class_index_lookup labels lw label idx :
  make_dict_class_index labels lw !! label = Some idx →
  idx = indices_from 0 label lw.
Proof.
  unfold make_dict_class_index.
  intros Hin%elem_of_list_to_map_2.
  apply list_elem_of_fmap in Hin as (l & [= -> ->] & _). done.
Qed.

Lemma assign_lookup shuffle labels dict nums label g :
  assign_indices_train_val_test shuffle labels dict nums !! label = Some g →
  ∃ idx, dict !! label = Some idx ∧ g = split_train_val_test nums (shuffle idx).
Proof.
  unfold assign_indices_train_val_test.
  intros Hin%elem_of_list_to_map_2.
  apply list_elem_of_omap in Hin as (l & _ & Hl).
  destruct (dict !! l) as [idx|] eqn:Hd; simpl in Hl; [|done].
  injection Hl as -> <-. eauto.
Qed.

Lemma split_train_val_test_disjoint nums l tr va te :
  NoDup l →
  split_train_val_test nums l = (tr, va, te) →
  tr ## va ∧ tr ## te ∧ va ## te ∧ length tr + length va + length te ≤ length l.
Proof.
  destruct nums as [[n_tr n_va] n_te]. intros Hnd [= <- <- <-].
  rewrite <- (take_drop n_tr l) in Hnd.
  apply NoDup_app in Hnd as (_ & Hdisj & Hnd).
  rewrite <- (drop_drop l n_va n_tr).
  rewrite <- (take_drop n_va (drop n_tr l)) in Hnd.
  apply NoDup_app in Hnd as (_ & Hdisj' & _).
  split_and!.
  - intros x Hx Hx'. apply (Hdisj x Hx). by apply (subseteq_take n_va).
  - intros x Hx Hx'. apply (Hdisj x Hx).
    by apply (subseteq_drop n_va), (subseteq_take n_te).
  - intros x Hx Hx'. apply (Hdisj' x Hx). by apply (subseteq_take n_te).
  - rewrite !length_take, !length_drop. lia.
Qed.

Lemma disjointb_spec (l1 l2 : list nat) : disjointb l1 l2 = true ↔ l1 ## l2.
Proof.
  unfold disjointb. rewrite forallb_forall. split.
  - intros H x Hx Hx'. apply list_elem_of_In, H in Hx.
    apply negb_true_iff, bool_decide_eq_false in Hx. done.
  - intros H x Hx%list_elem_of_In.
    apply negb_true_iff, bool_decide_eq_false. intros Hx'. by apply (H x).
Qed.

Lemma not_mixed_spec g : not_mixed g = true ↔ groups_disjoint g.
Proof.
  destruct g as [[tr va] te]. unfold not_mixed, groups_disjoint. simpl.
  rewrite !andb_true_iff, !disjointb_spec. tauto.
Qed.

Lemma check_4_dataset_mixing_ok labels d :
  check_4_dataset_mixing labels d = Ok tt ↔
  ∀ label, label ∈ labels → ∃ g, d !! label = Some g ∧ groups_disjoint g.
Proof.
  induction labels as [|l labels IH]; simpl.
  - split; [by intros _ ? ?%elem_of_nil | done].
  - split.
    + destruct (d !! l) as [g|] eqn:Hd; [|done].
      destruct (not_mixed g) eqn:Hg; [|done].
      intros Hrest label [->|Hin]%elem_of_cons.
      * exists g. split; [done|]. by apply not_mixed_spec.
      * by apply IH.
    + intros H. destruct (H l) as (g & -> & Hg); [by left|].
      apply not_mixed_spec in Hg as ->. apply IH. intros label Hin. apply H. by right.
Qed.

Lemma check_4_dataset_mixing_raises labels d e :
  check_4_dataset_mixing labels d = Raise e →
  (e = SplitConsistencyError ∧
   ∃ label g, label ∈ labels ∧ d !! label = Some g ∧ ¬ groups_disjoint g) ∨
  (e = KeyError ∧ ∃ label, label ∈ labels ∧ d !! label = None).
Proof.
  induction labels as [|l labels IH]; simpl; [done|].
  destruct (d !! l) as [g|] eqn:Hd.
  - destruct (not_mixed g) eqn:Hg.
    + intros [(-> & label & g' & Hin & Hl & Hm)|(-> & label & Hin & Hl)]%IH.
      * left. split; [done|]. exists label, g'. split_and!; [by right|done..].
      * right. split; [done|]. exists label. split; [by right|done].
    + intros [= <-]. left. split; [done|]. exists l, g. split_and!; [by left|done|].
      intros Hdis%not_mixed_spec. congruence.
  - intros [= <-]. right. split; [done|]. exists l. split; [by left|done].
Qed.

(** With a random source that permutes, the groups of every label are
    pairwise disjoint and no larger than the label's samples. *)
Lemma assigned_groups_disjoint shuffle labels lw nums label g :
  (∀ l, shuffle l ≡ₚ l) →
  assign_indices_train_val_test shuffle labels (make_dict_class_index labels lw) nums
    !! label = Some g →
  groups_disjoint g ∧
  length g.1.1 + length g.1.2 + length g.2 ≤ length (filter (λ x, x = label) lw).
Proof.
  intros Hperm (idx & ->%make_dict_class_index_lookup & ->)%assign_lookup.
  destruct (split_train_val_test nums _) as [[tr va] te] eqn:Hs.
  apply split_train_val_test_disjoint in Hs as (? & ? & ? & Hlen).
  - unfold groups_disjoint. simpl. split_and!; try done.
    by rewrite Hperm, indices_from_length in Hlen.
  - rewrite Hperm. apply indices_from_NoDup.
Qed.

(** ** The run as a whole *)

(** [main] is the data organization followed, when it returns, by the
    feature extraction; [ExitApp] and [IndexError] end in [sys.exit()]. *)
Lemma main_eval (w : world) (a : args) (st : state) :
  main w a st =
  match organize_run w a st with
  | (Ok o, st1) => feature_extraction w a (set_defaults a) (head_folder w a) o st1
  | (Raise e, st1) =>
      if bool_decide (e = ExitApp ∨ e = IndexError)
      then (Raise SystemExit, {| fs := fs st1; trace := trace st1 ++ [E_sys_exit] |})
      else (Raise e, st1)
  end.
Proof.
  rewrite main_after_head_folder. unfold bind. rewrite organize_or_exit_unfold.
  unfold organize_run.
  destruct (organize _ _ _ _ _ _) as [[o|e] st1]; [done|].
  by destruct (bool_decide _).
Qed.

Lemma organize_run_filenames w a st o st1 :
  organize_run w a st = (Ok o, st1) →
  o_train_val_test_filenames o = features_filename (head_folder w a) <$> split_names.
Proof.
  intros (? & ? & ? & ? & ? & ? & _ & _ & _ & _ & _ & _ & _ & -> & _)%organize_ok.
  reflexivity.
Qed.

Lemma pass_cases w i :
  pass_succeeds w i ∨ pass_fails w i ∨ ∃ e, w_save_feats2npy w i = Raise e.
Proof.
  unfold pass_succeeds, pass_fails.
  destruct (w_save_feats2npy w i) as [v|e]; [|eauto].
  destruct (Py.truthy v) eqn:Hv; eauto.
Qed.

Lemma pass_succeeds_not_fails w i : pass_succeeds w i → pass_fails w i → False.
Proof. intros (v & Hv & Ht) (v' & Hv' & Hf). congruence. Qed.

(** The feature extraction returns [True] exactly when all three passes
    report success, and then each pass has written its file. *)
Lemma feature_extraction_true w a s hf o st r st2 :
  o_train_val_test_filenames o = features_filename hf <$> split_names →
  feature_extraction w a s hf o st = (r, st2) →
  (r = Ok true ↔ ∀ i, i < 3 → pass_succeeds w i) ∧
  (r = Ok true →
   st2 = pass_done a s hf o 2 (pass_done a s hf o 1 (pass_done a s hf o 0 st))) ∧
  r ≠ Raise FeatureExtractionFail.
Proof.
  intros Hf. rewrite feature_extraction_eval by done.
  assert (∀ P : nat → Prop, P 0 → P 1 → P 2 → ∀ i, i < 3 → P i) as Hall.
  { intros P ? ? ? [|[|[|i]]] ?; (done || lia). }
  unfold pass_succeeds.
  destruct (w_save_feats2npy w 0) as [v0|e0] eqn:H0.
  2:{ destruct (bool_decide_reflect (e0 = FeatureExtractionFail)); intros [= <- <-];
      (split_and!; [split; [done|]|done|congruence]);
      intros H; destruct (H 0) as (? & ? & ?); (lia || congruence). }
  destruct (Py.truthy v0) eqn:Hv0; simpl.
  2:{ intros [= <- <-]. split_and!; [split; [done|]|done..].
      intros H; destruct (H 0) as (? & ? & ?); (lia || congruence). }
  destruct (w_save_feats2npy w 1) as [v1|e1] eqn:H1.
  2:{ destruct (bool_decide_reflect (e1 = FeatureExtractionFail)); intros [= <- <-];
      (split_and!; [split; [done|]|done|congruence]);
      intros H; destruct (H 1) as (? & ? & ?); (lia || congruence). }
  destruct (Py.truthy v1) eqn:Hv1; simpl.
  2:{ intros [= <- <-]. split_and!; [split; [done|]|done..].
      intros H; destruct (H 1) as (? & ? & ?); (lia || congruence). }
  destruct (w_save_feats2npy w 2) as [v2|e2] eqn:H2.
  2:{ destruct (bool_decide_reflect (e2 = FeatureExtractionFail)); intros [= <- <-];
      (split_and!; [split; [done|]|done|congruence]);
      intros H; destruct (H 2) as (? & ? & ?); (lia || congruence). }
  destruct (Py.truthy v2) eqn:Hv2; simpl.
  2:{ intros [= <- <-]. split_and!; [split; [done|]|done..].
      intros H; destruct (H 2) as (? & ? & ?); (lia || congruence). }
  intros [= <- <-]. split_and!; [split; [intros _|done]|done..].
  apply Hall; eauto.
Qed.

Local Arguments extraction_rounds : simpl never.

(** A pass that reports failure after successful ones raises
    [FeatureExtractionFail] in the loop, and the extraction returns [False]. *)
Lemma feature_extraction_false w a s hf o st i :
  o_train_val_test_filenames o = features_filename hf <$> split_names →
  i < 3 → (∀ j, j < i → pass_succeeds w j) → pass_fails w i →
  (extraction_rounds w a s hf o (seq 0 3) st).1 = Raise FeatureExtractionFail ∧
  (feature_extraction w a s hf o st).1 = Ok false.
Proof.
  intros Hf Hi Hbefore (v & Hv & Hfalse).
  rewrite feature_extraction_eval by done. change (seq 0 3) with [0; 1; 2].
  destruct i as [|i].
  { rewrite extraction_round by (lia || done). by rewrite Hv, Hfalse. }
  destruct (Hbefore 0) as (v0 & Hv0 & Ht0); [lia|].
  rewrite extraction_round by (lia || done). rewrite Hv0, Ht0. simpl.
  destruct i as [|i].
  { rewrite extraction_round by (lia || done). by rewrite Hv, Hfalse. }
  destruct (Hbefore 1) as (v1 & Hv1 & Ht1); [lia|].
  rewrite extraction_round by (lia || done). rewrite Hv1, Ht1. simpl.
  destruct i as [|i]; [|lia].
  rewrite extraction_round by (lia || done). by rewrite Hv, Hfalse.
Qed.

Lemma main_true_inv w a st st2 :
  main w a st = (Ok true, st2) →
  ∃ o st1,
    organize_run w a st = (Ok o, st1) ∧
    (∀ i, i < 3 → pass_succeeds w i) ∧
    st2 = pass_done a (set_defaults a) (head_folder w a) o 2
            (pass_done a (set_defaults a) (head_folder w a) o 1
               (pass_done a (set_defaults a) (head_folder w a) o 0 st1)).
Proof.
  rewrite main_eval.
  destruct (organize_run w a st) as [[o|e] st1] eqn:Horg.
  - intros Hfe. exists o, st1.
    apply feature_extraction_true in Hfe as (Hiff & Hst & _);
      [|by eapply organize_run_filenames].
    split_and!; [done|by apply Hiff|by apply Hst].
  - by destruct (bool_decide _).
Qed.

(** ** Outcomes of a run *)

(** C4: [main] returns [True] if and only if the run reaches the feature
    extraction and the passes of all three splits report success; a pass
    that reports failure makes the loop raise [FeatureExtractionFail], which
    [main] catches: it returns [False] and the exception does not reach the
    caller. *)
Theorem main_true_iff_all_passes_succeed (w : world) (a : args) (st : state) :
  ((main w a st).1 = Ok true ↔
   (∃ o st1, organize_run w a st = (Ok o, st1)) ∧ ∀ i, i < 3 → pass_succeeds w i) ∧
  (∀ o st1 i,
     organize_run w a st = (Ok o, st1) →
     i < 3 → (∀ j, j < i → pass_succeeds w j) → pass_fails w i →
     (extraction_rounds w a (set_defaults a) (head_folder w a) o (seq 0 3) st1).1
       = Raise FeatureExtractionFail ∧
     (main w a st).1 = Ok false) ∧
  (∀ o st1,
     organize_run w a st = (Ok o, st1) →
     (main w a st).1 ≠ Raise FeatureExtractionFail).
Proof.
  split_and!.
  - split.
    + destruct (main w a st) as [r st2] eqn:Hmain. simpl. intros ->.
      apply main_true_inv in Hmain as (o & st1 & Horg & Hall & _). eauto.
    + intros [(o & st1 & Horg) Hall]. rewrite main_eval, Horg.
      destruct (feature_extraction _ _ _ _ _ _) as [r st2] eqn:Hfe.
      apply feature_extraction_true in Hfe as (Hiff & _);
        [|by eapply organize_run_filenames].
      by apply Hiff.
  - intros o st1 i Horg Hi Hbefore Hfail. rewrite main_eval, Horg.
    apply (feature_extraction_false _ _ _ _ _ _ i);
      [by eapply organize_run_filenames|done..].
  - intros o st1 Horg. rewrite main_eval, Horg.
    destruct (feature_extraction _ _ _ _ _ _) as [r st2] eqn:Hfe.
    apply feature_extraction_true in Hfe as (Hiff & Hst & Hne);
      [done|by eapply organize_run_filenames].
Qed.

Lemma main_true_iff_all_passes_succeed_witness :
  (main (demo_world "y" reverse all_succeed) script_args empty_state).1 = Ok true ∧
  (main (demo_world "y" reverse second_fails) script_args empty_state).1 = Ok false.
Proof.
  split.
  - apply (main_true_iff_all_passes_succeed
             (demo_world "y" reverse all_succeed) script_args empty_state).
    split.
    + destruct (organize_run (demo_world "y" reverse all_succeed) script_args empty_state)
        as [[o|e] st1] eqn:Horg; [by exists o, st1|].
      apply (f_equal fst) in Horg. vm_compute in Horg. discriminate Horg.
    + intros i _. exists Py.True_. split; reflexivity.
  - destruct (organize_run (demo_world "y" reverse second_fails) script_args empty_state)
      as [[o|e] st1] eqn:Horg.
    + destruct (main_true_iff_all_passes_succeed
                  (demo_world "y" reverse second_fails) script_args empty_state)
        as (_ & Hfalse & _).
      apply (Hfalse o st1 1 Horg).
      * lia.
      * intros j Hj. exists Py.True_. destruct j as [|j]; [split; reflexivity|lia].
      * exists Py.False_. split; reflexivity.
    + apply (f_equal fst) in Horg. vm_compute in Horg. discriminate Horg.
Defined.

(** The events of the feature extraction are calls of [save_feats2npy]. *)
Lemma feature_extraction_trace w a s hf o st :
  o_train_val_test_filenames o = features_filename hf <$> split_names →
  ∃ evs, trace (feature_extraction w a s hf o st).2 = trace st ++ evs ∧
         Forall (λ e, is_save e = true) evs.
Proof.
  intros Hf. rewrite feature_extraction_eval by done.
  repeat match goal with
  | |- context [match ?x with Ok _ => _ | Raise _ => _ end] => destruct x as [?|?]
  | |- context [if ?b then _ else _] => destruct b
  end; simpl; solve_events.
Qed.

(** The events of the data organization of a run, the head folder included. *)
Lemma organize_run_trace w a st :
  ∃ evs, trace (organize_run w a st).2 = trace st ++ evs ∧
         Forall (λ e, organizing e = true) evs.
Proof.
  unfold organize_run.
  destruct (organize _ _ _ _ _ _) as [r st1] eqn:Horg. simpl.
  apply organize_any in Horg as [(evs & -> & Hevs) _].
  unfold make_dir_state. destruct (fs st !! _); simpl.
  - by exists evs.
  - exists (E_makedirs (head_folder w a) :: evs). rewrite <- app_assoc.
    split; [done|]. by constructor.
Qed.

Lemma organize_run_npy w a st k f :
  fs (organize_run w a st).2 !! k = Some (Npy f) → fs st !! k = Some (Npy f).
Proof.
  unfold organize_run.
  destruct (organize _ _ _ _ _ _) as [r st1] eqn:Horg.
  apply organize_any in Horg as [_ Hnpy]. cbn [snd]. intros H%Hnpy. revert H.
  unfold make_dir_state. destruct (fs st !! normpath _) eqn:Hl; [done|]. cbn [fs].
  destruct (decide (normpath (head_folder w a) = k)) as [->|Hne].
  - by rewrite lookup_insert_eq.
  - by rewrite lookup_insert_ne.
Qed.

(** The events of a run: those of the data organization, then either the
    calls of [save_feats2npy], or [sys.exit()], or nothing more. *)
Lemma main_trace w a st :
  ∃ evs_org evs_rest,
    trace (organize_run w a st).2 = trace st ++ evs_org ∧
    trace (main w a st).2 = trace st ++ evs_org ++ evs_rest ∧
    Forall (λ e, organizing e = true) evs_org ∧
    match (organize_run w a st).1 with
    | Ok _ => Forall (λ e, is_save e = true) evs_rest
    | Raise e =>
        evs_rest = if bool_decide (e = ExitApp ∨ e = IndexError) then [E_sys_exit] else []
    end.
Proof.
  destruct (organize_run_trace w a st) as (evs & Htr & Hevs).
  rewrite main_eval.
  destruct (organize_run w a st) as [[o|e] st1] eqn:Horg; simpl in *.
  - destruct (feature_extraction_trace w a (set_defaults a) (head_folder w a) o st1)
      as (evs' & Htr' & Hevs'); [by eapply organize_run_filenames|].
    exists evs, evs'. rewrite Htr', Htr, <- app_assoc. done.
  - exists evs. eexists. split_and!; [done| |done|reflexivity].
    destruct (bool_decide _); simpl; rewrite Htr, <- ?app_assoc; [done|].
    by rewrite app_nil_r.
Qed.

Lemma organizing_not_exit evs :
  Forall (λ e, organizing e = true) evs → E_sys_exit ∉ evs.
Proof.
  intros H Hin. rewrite Forall_forall in H. by apply H in Hin.
Qed.

Lemma organizing_not_save evs i :
  Forall (λ e, organizing e = true) evs → E_save_feats2npy i ∉ evs.
Proof.
  intros H Hin. rewrite Forall_forall in H. by apply H in Hin.
Qed.

Lemma saves_not_exit evs :
  Forall (λ e, is_save e = true) evs → E_sys_exit ∉ evs.
Proof.
  intros H Hin. rewrite Forall_forall in H. by apply H in Hin.
Qed.

Lemma feature_extraction_outcome w a s hf o st :
  o_train_val_test_filenames o = features_filename hf <$> split_names →
  (feature_extraction w a s hf o st).1 = Ok true ∨
  (feature_extraction w a s hf o st).1 = Ok false ∨
  ∃ e i, (feature_extraction w a s hf o st).1 = Raise e ∧
         e ≠ FeatureExtractionFail ∧ i < 3 ∧ w_save_feats2npy w i = Raise e.
Proof.
  intros Hf. rewrite feature_extraction_eval by done.
  destruct (w_save_feats2npy w 0) as [v0|e0] eqn:H0.
  2:{ destruct (bool_decide_reflect (e0 = FeatureExtractionFail)); [auto|].
      right; right. exists e0, 0. split_and!; (done || lia). }
  destruct (Py.truthy v0); simpl; [|auto].
  destruct (w_save_feats2npy w 1) as [v1|e1] eqn:H1.
  2:{ destruct (bool_decide_reflect (e1 = FeatureExtractionFail)); [auto|].
      right; right. exists e1, 1. split_and!; (done || lia). }
  destruct (Py.truthy v1); simpl; [|auto].
  destruct (w_save_feats2npy w 2) as [v2|e2] eqn:H2.
  2:{ destruct (bool_decide_reflect (e2 = FeatureExtractionFail)); [auto|].
      right; right. exists e2, 2. split_and!; (done || lia). }
  destruct (Py.truthy v2); simpl; auto.
Qed.

(** The first pass that raises, after passes that succeeded, decides the
    feature extraction: [FeatureExtractionFail] gives [False], any other
    exception is passed on. *)
Lemma feature_extraction_raise w a s hf o st i e :
  o_train_val_test_filenames o = features_filename hf <$> split_names →
  i < 3 → (∀ j, j < i → pass_succeeds w j) → w_save_feats2npy w i = Raise e →
  (feature_extraction w a s hf o st).1 =
    if bool_decide (e = FeatureExtractionFail) then Ok false else Raise e.
Proof.
  intros Hf Hi Hbefore He.
  rewrite feature_extraction_eval by done.
  destruct i as [|i].
  { rewrite He. by destruct (bool_decide _). }
  destruct (Hbefore 0) as (v0 & Hv0 & Ht0); [lia|]. rewrite Hv0, Ht0. simpl.
  destruct i as [|i].
  { rewrite He. by destruct (bool_decide _). }
  destruct (Hbefore 1) as (v1 & Hv1 & Ht1); [lia|]. rewrite Hv1, Ht1. simpl.
  destruct i as [|i]; [|lia].
  rewrite He. by destruct (bool_decide _).
Qed.

(** C5, as the code has it: [main] ends the process itself, by
    [sys.exit()], exactly when the data organization raises [ExitApp] (the
    user declined the labels) or [IndexError]; every other exception of the
    data organization reaches the caller; and once the feature extraction is
    reached the passes decide: [True] when all three succeed, [False] when
    the first pass that does not succeed reports failure or raises
    [FeatureExtractionFail], and when that pass raises any other exception,
    this exception reaches the caller. *)
Theorem main_exits_or_reports (w : world) (a : args) (st : state) :
  (∀ evs, trace (main w a st).2 = trace st ++ evs →
     (E_sys_exit ∈ evs ↔
      ∃ e, (organize_run w a st).1 = Raise e ∧ (e = ExitApp ∨ e = IndexError))) ∧
  (∀ e, (organize_run w a st).1 = Raise e → e = ExitApp ∨ e = IndexError →
     (main w a st).1 = Raise SystemExit) ∧
  (∀ labels, w_collect_labels w = Ok labels → accepts (input_line w) = false →
     (organize_run w a st).1 = Raise ExitApp) ∧
  (∀ e, (organize_run w a st).1 = Raise e → e ≠ ExitApp → e ≠ IndexError →
     (main w a st).1 = Raise e) ∧
  (∀ o, (organize_run w a st).1 = Ok o →
     (main w a st).1 = Ok true ∨ (main w a st).1 = Ok false ∨
     ∃ e i, (main w a st).1 = Raise e ∧ e ≠ FeatureExtractionFail ∧
            i < 3 ∧ w_save_feats2npy w i = Raise e) ∧
  (∀ o, (organize_run w a st).1 = Ok o →
     (∀ i, i < 3 → pass_succeeds w i) → (main w a st).1 = Ok true) ∧
  (∀ o i, (organize_run w a st).1 = Ok o →
     i < 3 → (∀ j, j < i → pass_succeeds w j) →
     pass_fails w i ∨ w_save_feats2npy w i = Raise FeatureExtractionFail →
     (main w a st).1 = Ok false) ∧
  (∀ o i e, (organize_run w a st).1 = Ok o →
     i < 3 → (∀ j, j < i → pass_succeeds w j) →
     w_save_feats2npy w i = Raise e → e ≠ FeatureExtractionFail →
     (main w a st).1 = Raise e).
Proof.
  split_and!.
  - intros evs Hevs.
    destruct (main_trace w a st) as (evs_org & evs_rest & _ & Htr & Horg & Hrest).
    rewrite Htr in Hevs. apply app_inv_head in Hevs as <-.
    rewrite elem_of_app.
    destruct (organize_run w a st).1 as [o|e].
    + split.
      * intros [Hin|Hin]; [by apply organizing_not_exit in Hin|
                            by apply saves_not_exit in Hin].
      * by intros (e & ? & _).
    + subst evs_rest. split.
      * intros [Hin|Hin]; [by apply organizing_not_exit in Hin|].
        exists e. split; [done|].
        destruct (bool_decide_reflect (e = ExitApp ∨ e = IndexError)); [done|].
        by apply elem_of_nil in Hin.
      * intros (e' & [= <-] & He). right. rewrite bool_decide_eq_true_2 by done.
        by left.
  - intros e He Hcase. rewrite main_eval.
    destruct (organize_run w a st) as [[o|e'] st1]; simpl in He; [done|].
    injection He as ->. by rewrite bool_decide_eq_true_2.
  - intros labels Hl Hacc. unfold organize_run.
    by erewrite organize_declined.
  - intros e He Hne1 Hne2. rewrite main_eval.
    destruct (organize_run w a st) as [[o|e'] st1]; simpl in He; [done|].
    injection He as ->. rewrite bool_decide_eq_false_2; [done|]. by intros [?|?].
  - intros o Ho. rewrite main_eval.
    destruct (organize_run w a st) as [[o'|e'] st1] eqn:Horg; simpl in Ho; [|done].
    apply feature_extraction_outcome. by eapply organize_run_filenames.
  - intros o Ho Hall. rewrite main_eval.
    destruct (organize_run w a st) as [[o'|e'] st1] eqn:Horg; simpl in Ho; [|done].
    destruct (feature_extraction w a (set_defaults a) (head_folder w a) o' st1)
      as [r st2] eqn:Hfe.
    apply feature_extraction_true in Hfe as (Hiff & _); [|by eapply organize_run_filenames].
    by apply Hiff.
  - intros o i Ho Hi Hbefore Hfail. rewrite main_eval.
    destruct (organize_run w a st) as [[o'|e'] st1] eqn:Horg; simpl in Ho; [|done].
    pose proof (organize_run_filenames _ _ _ _ _ Horg) as Hf.
    destruct Hfail as [Hfail|Hfail].
    + by apply (feature_extraction_false _ _ _ _ _ _ i).
    + by rewrite (feature_extraction_raise _ _ _ _ _ _ i _ Hf Hi Hbefore Hfail).
  - intros o i e Ho Hi Hbefore He Hne. rewrite main_eval.
    destruct (organize_run w a st) as [[o'|e'] st1] eqn:Horg; simpl in Ho; [|done].
    pose proof (organize_run_filenames _ _ _ _ _ Horg) as Hf.
    rewrite (feature_extraction_raise _ _ _ _ _ _ i e Hf Hi Hbefore He).
    by rewrite bool_decide_eq_false_2.
Qed.

Lemma main_exits_or_reports_witness :
  (main (demo_world "n" reverse all_succeed) script_args empty_state).1 = Raise SystemExit ∧
  (main (demo_world "y" reverse second_raises) script_args empty_state).1
    = Raise (OtherError "MemoryError") ∧
  (main (demo_world "y" reverse second_fails) script_args empty_state).1 = Ok false.
Proof.
  split; [|split].
  - destruct (main_exits_or_reports (demo_world "n" reverse all_succeed) script_args
                empty_state) as (_ & Hexit & Hdeclined & _).
    apply (Hexit ExitApp).
    + apply (Hdeclined ["no"; "yes"]); reflexivity.
    + left. reflexivity.
  - destruct (main_exits_or_reports (demo_world "y" reverse second_raises) script_args
                empty_state) as (_ & _ & _ & _ & _ & _ & _ & Hraise).
    destruct (organize_run (demo_world "y" reverse second_raises) script_args
                empty_state).1 as [o|e] eqn:Horg.
    + apply (Hraise o 1 (OtherError "MemoryError") eq_refl).
      * lia.
      * intros j Hj. exists Py.True_. destruct j as [|j]; [split; reflexivity|lia].
      * reflexivity.
      * discriminate.
    + vm_compute in Horg. discriminate Horg.
  - destruct (main_exits_or_reports (demo_world "y" reverse second_fails) script_args
                empty_state) as (_ & _ & _ & _ & _ & _ & Hfalse & _).
    destruct (organize_run (demo_world "y" reverse second_fails) script_args
                empty_state).1 as [o|e] eqn:Horg.
    + apply (Hfalse o 1 eq_refl).
      * lia.
      * intros j Hj. exists Py.True_. destruct j as [|j]; [split; reflexivity|lia].
      * left. exists Py.False_. split; reflexivity.
    + vm_compute in Horg. discriminate Horg.
Defined.

(** C5, as stated, fails: a user who answers [n] makes [main] call
    [sys.exit()]. *)
Lemma core_exits_when_user_declines :
  calls_sys_exit (demo_world "n" reverse all_succeed) script_args empty_state ∧
  (main (demo_world "n" reverse all_succeed) script_args empty_state).1 =
    Raise SystemExit.
Proof.
  split.
  - unfold calls_sys_exit. apply (bool_decide_unpack _). vm_compute. exact I.
  - vm_compute. reflexivity.
Qed.

(** Lower case has a [y] where the string has a [y] or a [Y], and is empty
    when the string is. *)
Lemma lower_char_y (c : ascii) :
  Py.lower_char c = "y"%char ↔ c = "y"%char ∨ c = "Y"%char.
Proof.
  split.
  - destruct c as [[] [] [] [] [] [] [] []]; cbv; intros H; try discriminate H; auto.
  - by intros [->| ->].
Qed.

Lemma lower_has_y (s : string) :
  "y"%char ∈ String.list_ascii_of_string (Py.lower s) ↔
  "y"%char ∈ String.list_ascii_of_string s ∨ "Y"%char ∈ String.list_ascii_of_string s.
Proof.
  induction s as [|c s IH]; simpl.
  - rewrite !elem_of_nil. tauto.
  - rewrite !elem_of_cons, IH.
    assert ("y"%char = Py.lower_char c ↔ "y"%char = c ∨ "Y"%char = c) as ->.
    { split.
      - intros H. symmetry in H. apply lower_char_y in H as [->| ->]; auto.
      - intros [<-|<-]; reflexivity. }
    tauto.
Qed.

Lemma lower_empty (s : string) : Py.lower s = "" ↔ s = "".
Proof. by destruct s. Qed.

(** C10: the answer is accepted exactly when its lower-case form contains
    the character [y] or is empty, that is, when the answer itself is empty
    or has a [y] or a [Y] in it, so that [nyet], [Y] and [YES] are accepted
    and [No] is not; an accepted answer lets the run go on to the label
    dictionary, any other answer raises [ExitApp], and the run ends in
    [sys.exit()] with no call after the question. *)
Theorem label_confirmation (w : world) (a : args) (st : state) :
  (∀ answer,
     accepts answer = true ↔
     "y"%char ∈ String.list_ascii_of_string (Py.lower answer) ∨ Py.lower answer = "") ∧
  (∀ answer,
     accepts answer = true ↔
     answer = "" ∨ "y"%char ∈ String.list_ascii_of_string answer ∨
     "Y"%char ∈ String.list_ascii_of_string answer) ∧
  accepts "nyet" = true ∧ accepts "Y" = true ∧ accepts "YES" = true ∧
  accepts "No" = false ∧
  (∀ labels, w_collect_labels w = Ok labels → accepts (input_line w) = true →
     ∃ evs, trace (organize_run w a st).2 =
            trace (make_dir_state (head_folder w a) st) ++
            [E_collect_labels; E_input; E_create_save_dict_labels_encode] ++ evs) ∧
  (∀ labels, w_collect_labels w = Ok labels → accepts (input_line w) = false →
     organize_run w a st =
       (Raise ExitApp,
        {| fs := fs (make_dir_state (head_folder w a) st);
           trace := trace (make_dir_state (head_folder w a) st) ++
                    [E_collect_labels; E_input] |}) ∧
     main w a st =
       (Raise SystemExit,
        {| fs := fs (make_dir_state (head_folder w a) st);
           trace := trace (make_dir_state (head_folder w a) st) ++
                    [E_collect_labels; E_input; E_sys_exit] |})).
Proof.
  split_and!.
  - intros answer. unfold accepts.
    rewrite orb_true_iff, str_in_char, String.eqb_eq. done.
  - intros answer. unfold accepts.
    rewrite orb_true_iff, str_in_char, String.eqb_eq, lower_has_y, lower_empty. tauto.
  - reflexivity.
  - reflexivity.
  - reflexivity.
  - reflexivity.
  - intros labels Hl Hacc. unfold organize_run.
    destruct (organize _ _ _ _ _ _) as [r st1] eqn:Horg.
    by eapply organize_accepted in Horg.
  - intros labels Hl Hacc.
    assert (organize_run w a st =
            (Raise ExitApp,
             {| fs := fs (make_dir_state (head_folder w a) st);
                trace := trace (make_dir_state (head_folder w a) st) ++
                         [E_collect_labels; E_input] |})) as Horg
      by (unfold organize_run; by erewrite organize_declined).
    split; [done|]. rewrite main_eval, Horg. simpl. by rewrite <- app_assoc.
Qed.

Lemma label_confirmation_witness :
  (∃ evs, trace (organize_run (demo_world "nyet" reverse all_succeed) script_args
                   empty_state).2 =
          trace (make_dir_state
                   (head_folder (demo_world "nyet" reverse all_succeed) script_args)
                   empty_state) ++
          [E_collect_labels; E_input; E_create_save_dict_labels_encode] ++ evs) ∧
  (∃ evs, trace (organize_run (demo_world "YES" reverse all_succeed) script_args
                   empty_state).2 =
          trace (make_dir_state
                   (head_folder (demo_world "YES" reverse all_succeed) script_args)
                   empty_state) ++
          [E_collect_labels; E_input; E_create_save_dict_labels_encode] ++ evs) ∧
  (main (demo_world "No" reverse all_succeed) script_args empty_state).1 =
    Raise SystemExit.
Proof.
  split; [|split].
  - destruct (label_confirmation (demo_world "nyet" reverse all_succeed) script_args
                empty_state) as (_ & _ & _ & _ & _ & _ & Haccepted & _).
    apply (Haccepted ["no"; "yes"]); reflexivity.
  - destruct (label_confirmation (demo_world "YES" reverse all_succeed) script_args
                empty_state) as (_ & _ & _ & _ & _ & _ & Haccepted & _).
    apply (Haccepted ["no"; "yes"]); reflexivity.
  - destruct (label_confirmation (demo_world "No" reverse all_succeed) script_args
                empty_state) as (_ & _ & _ & _ & _ & _ & _ & Hdeclined).
    destruct (Hdeclined ["no"; "yes"]) as [_ ->]; reflexivity.
Defined.

(** ** The check of the splits *)

(** A data organization that returns has assigned and then checked the
    splits as its last two steps, after calls none of which extracts. *)
Lemma organize_run_ok w a st o st1 :
  organize_run w a st = (Ok o, st1) →
  check_4_dataset_mixing (o_labels_class o) (o_dict_class_dataset_index_list o) = Ok tt ∧
  (∃ audio nums,
     w_collect_labels w = Ok (o_labels_class o) ∧
     w_collect_audio_and_labels w = Ok audio ∧
     w_get_max_nums_train_val_test w = Ok nums ∧
     o_dict_class_dataset_index_list o =
       assign_indices_train_val_test (w_shuffle w) (o_labels_class o)
         (make_dict_class_index (o_labels_class o) audio.2) nums) ∧
  ∃ pre, trace st1 = trace st ++ pre ++
                     [E_assign_indices_train_val_test; E_check_4_dataset_mixing] ∧
         Forall (λ e, is_save e = false) pre.
Proof.
  unfold organize_run.
  intros (labels & dle & audio & ms & nums & devs & Hl & _ & _ & Ha & _ & Hn & Hcheck
          & -> & _ & _ & Htr & Hdevs)%organize_ok.
  simpl. split_and!; [done|by exists audio, nums|].
  destruct (make_dir_state_trace (head_folder w a) st) as (evs0 & Htr0 & Hevs0).
  rewrite Htr, Htr0.
  exists (evs0 ++ [E_collect_labels; E_input; E_create_save_dict_labels_encode] ++ devs ++
          [E_collect_audio_and_labels; E_get_max_samples_per_class;
           E_log_extraction_settings; E_log_class4balance; E_make_dict_class_index;
           E_get_max_nums_train_val_test]).
  split.
  - unfold organization_events. rewrite <- ?app_assoc. simpl.
    by rewrite <- ?app_assoc.
  - apply Forall_app. split; [done|].
    repeat (apply Forall_cons; split; [reflexivity|]).
    apply Forall_app. split; [|by repeat constructor].
    eapply Forall_impl; [exact Hdevs|]. by intros [].
Qed.

(** C1: the train, validation and test indices the Split Assigner gives a
    label are pairwise disjoint, and together no more than the label has
    samples; a run calls [save_feats2npy] only after
    [assign_indices_train_val_test] and then [check_4_dataset_mixing] have
    run and the check has found the groups of every label disjoint; and a
    run whose assignment fails the check does not return, extracts nothing
    and writes no array file. *)
Theorem splits_are_disjoint_and_checked :
  (∀ shuffle labels_class labels_wavefile nums label g,
     (∀ l, shuffle l ≡ₚ l) →
     assign_indices_train_val_test shuffle labels_class
       (make_dict_class_index labels_class labels_wavefile) nums !! label = Some g →
     groups_disjoint g ∧
     length g.1.1 + length g.1.2 + length g.2
       ≤ length (filter (λ x, x = label) labels_wavefile)) ∧
  (∀ w a st i,
     E_save_feats2npy i ∉ trace st →
     E_save_feats2npy i ∈ trace (main w a st).2 →
     ∃ o,
       (organize_run w a st).1 = Ok o ∧
       check_4_dataset_mixing (o_labels_class o) (o_dict_class_dataset_index_list o)
         = Ok tt ∧
       (∀ label, label ∈ o_labels_class o →
          ∃ g, o_dict_class_dataset_index_list o !! label = Some g ∧ groups_disjoint g) ∧
       ∃ pre post,
         trace (main w a st).2 =
           trace st ++ pre ++
           [E_assign_indices_train_val_test; E_check_4_dataset_mixing] ++ post ∧
         Forall (λ e, is_save e = false) pre ∧
         Forall (λ e, is_save e = true) post) ∧
  (∀ w a st labels audio nums,
     w_collect_labels w = Ok labels →
     w_collect_audio_and_labels w = Ok audio →
     w_get_max_nums_train_val_test w = Ok nums →
     check_4_dataset_mixing labels
       (assign_indices_train_val_test (w_shuffle w) labels
          (make_dict_class_index labels audio.2) nums) ≠ Ok tt →
     (∀ b, (main w a st).1 ≠ Ok b) ∧
     (∀ i, E_save_feats2npy i ∈ trace (main w a st).2 → E_save_feats2npy i ∈ trace st) ∧
     (∀ k f, fs (main w a st).2 !! k = Some (Npy f) → fs st !! k = Some (Npy f))) ∧
  (∀ w a st,
     (organize_run w a st).1 = Raise SplitConsistencyError →
     (main w a st).1 = Raise SplitConsistencyError).
Proof.
  split_and!.
  - intros. by eapply assigned_groups_disjoint.
  - intros w a st i Hnot Hin.
    destruct (organize_run w a st) as [[o|e] st1] eqn:Hrun.
    + exists o. apply organize_run_ok in Hrun as Hok.
      destruct Hok as (Hcheck & _ & pre & Hpre & Hsave).
      split_and!; [done..|by apply check_4_dataset_mixing_ok|].
      destruct (feature_extraction_trace w a (set_defaults a) (head_folder w a) o st1)
        as (post & Hpost & Hsaves); [by eapply organize_run_filenames|].
      exists pre, post. split_and!; [|done..].
      rewrite main_eval, Hrun, Hpost, Hpre. by rewrite <- !app_assoc.
    + exfalso.
      destruct (main_trace w a st) as (evs_org & evs_rest & _ & Htr & Horg & Hrest).
      rewrite Hrun in Hrest. simpl in Hrest.
      rewrite Htr, !elem_of_app in Hin.
      destruct Hin as [?|[Hin|Hin]]; [done|by apply organizing_not_save in Hin|].
      subst evs_rest. destruct (bool_decide _).
      * by apply list_elem_of_singleton in Hin.
      * by apply elem_of_nil in Hin.
  - intros w a st labels audio nums Hl Ha Hn Hcheck.
    destruct (organize_run w a st) as [[o|e] st1] eqn:Hrun.
    { apply organize_run_ok in Hrun as (Hok & (audio' & nums' & Hl' & Ha' & Hn' & Hd) & _).
      rewrite Hd in Hok. congruence. }
    destruct (main_trace w a st) as (evs_org & evs_rest & _ & Htr & Horg & Hrest).
    rewrite Hrun in Hrest. simpl in Hrest.
    split_and!.
    + intros b. rewrite main_eval, Hrun. by destruct (bool_decide _).
    + intros i. rewrite Htr, !elem_of_app.
      intros [?|[Hin|Hin]]; [done|by apply organizing_not_save in Hin|].
      subst evs_rest. destruct (bool_decide _).
      * by apply list_elem_of_singleton in Hin.
      * by apply elem_of_nil in Hin.
    + intros k f. rewrite main_eval, Hrun.
      pose proof (organize_run_npy w a st k f) as Hnpy. rewrite Hrun in Hnpy.
      by destruct (bool_decide _).
  - intros w a st Hraise. rewrite main_eval.
    destruct (organize_run w a st) as [[o|e] st1]; simpl in Hraise; [done|].
    by injection Hraise as ->.
Qed.

Lemma splits_are_disjoint_and_checked_witness :
  (groups_disjoint ([8; 6; 4], [2], [0]) ∧ 3 + 1 + 1 ≤ 5) ∧
  (∃ o, (organize_run (demo_world "y" reverse all_succeed) script_args empty_state).1
          = Ok o ∧
        check_4_dataset_mixing (o_labels_class o) (o_dict_class_dataset_index_list o)
          = Ok tt) ∧
  (∀ b, (main (demo_world "y" repeat_first all_succeed) script_args empty_state).1
          ≠ Ok b).
Proof.
  destruct splits_are_disjoint_and_checked as (Hassign & Hchecked & Habort & _).
  split; [|split].
  - apply (Hassign reverse ["no"; "yes"]
             ["no"; "yes"; "no"; "yes"; "no"; "yes"; "no"; "yes"; "no"; "yes"]
             (3, 1, 1) "no" ([8; 6; 4], [2], [0])).
    + intros l. apply reverse_Permutation.
    + vm_compute. reflexivity.
  - destruct (Hchecked (demo_world "y" reverse all_succeed) script_args empty_state 0)
      as (o & Ho & Hcheck & _).
    + vm_compute. by intros ?%elem_of_nil.
    + apply (bool_decide_unpack _). vm_compute. exact I.
    + by exists o.
  - apply (Habort (demo_world "y" repeat_first all_succeed) script_args empty_state
             ["no"; "yes"]
             (["./data/no/0.wav"; "./data/yes/0.wav"; "./data/no/1.wav";
               "./data/yes/1.wav"; "./data/no/2.wav"; "./data/yes/2.wav";
               "./data/no/3.wav"; "./data/yes/3.wav"; "./data/no/4.wav";
               "./data/yes/4.wav"],
              ["no"; "yes"; "no"; "yes"; "no"; "yes"; "no"; "yes"; "no"; "yes"])
             (3, 1, 1)); try reflexivity.
    vm_compute. discriminate.
Defined.

(** ** What a successful run leaves, and what the training script reads *)

Local Arguments normpath : simpl never.

Lemma run_files w a st st2 :
  main w a st = (Ok true, st2) →
  ∃ o st1,
    organize_run w a st = (Ok o, st1) ∧
    w_collect_labels w = Ok (o_labels_class o) ∧
    fs st2 !! run_path (curr_folder w a) "/features_log.csv" =
      Some (Csv (log_rows a (set_defaults a) (o_labels_class o) (get_date (now w)))) ∧
    fs st2 !! run_path (curr_folder w a) "/data_train/train_features.npy" =
      Some (Npy (pass_args a (set_defaults a) (head_folder w a) o 0)) ∧
    fs st2 !! run_path (curr_folder w a) "/data_val/val_features.npy" =
      Some (Npy (pass_args a (set_defaults a) (head_folder w a) o 1)) ∧
    fs st2 !! run_path (curr_folder w a) "/data_test/test_features.npy" =
      Some (Npy (pass_args a (set_defaults a) (head_folder w a) o 2)).
Proof.
  intros (o & st1 & Horg & _ & ->)%main_true_inv.
  exists o, st1. split; [done|].
  apply organize_run_ok in Horg as Hlabels. destruct Hlabels as (_ & (? & ? & Hl & _) & _).
  split; [done|].
  unfold organize_run in Horg.
  apply organize_ok in Horg
    as (labels & dle & audio & ms & nums & devs & Hl' & _ & _ & _ & _ & _ & _ & Ho
        & Hlog & _).
  replace labels with (o_labels_class o) in Hlog by (by rewrite Ho).
  unfold head_folder in Hlog. rewrite log_key in Hlog.
  unfold pass_done, saved, called. cbn [fs pass_args round_args sa_filename nth split_names].
  unfold head_folder.
  rewrite !npy_key.
  change ("/data_" +:+ "train" +:+ "/" +:+ "train" +:+ "_features.npy")
    with "/data_train/train_features.npy".
  change ("/data_" +:+ "val" +:+ "/" +:+ "val" +:+ "_features.npy")
    with "/data_val/val_features.npy".
  change ("/data_" +:+ "test" +:+ "/" +:+ "test" +:+ "_features.npy")
    with "/data_test/test_features.npy".
  assert (∀ s1 s2 : string, s1 ≠ s2 →
            run_path (curr_folder w a) s1 ≠ run_path (curr_folder w a) s2) as Hne
    by (intros s1 s2 Hs Heq%run_path_inj; by apply Hs).
  split_and!.
  - rewrite !lookup_insert_ne by (by apply Hne). done.
  - rewrite !lookup_insert_ne by (by apply Hne). by rewrite lookup_insert_eq.
  - rewrite lookup_insert_ne by (by apply Hne). by rewrite lookup_insert_eq.
  - by rewrite lookup_insert_eq.
Qed.

(** What the training script reads after a successful run. *)
Lemma train_after_run w a st st2 :
  main w a st = (Ok true, st2) →
  ∃ o st1 st3,
    organize_run w a st = (Ok o, st1) ∧
    w_collect_labels w = Ok (o_labels_class o) ∧
    fs st2 !! run_path (curr_folder w a) "/features_log.csv" =
      Some (Csv (log_rows a (set_defaults a) (o_labels_class o) (get_date (now w)))) ∧
    (fs st2 !! run_path (curr_folder w a) "/data_train/train_features.npy" =
       Some (Npy (pass_args a (set_defaults a) (head_folder w a) o 0)) ∧
     fs st2 !! run_path (curr_folder w a) "/data_val/val_features.npy" =
       Some (Npy (pass_args a (set_defaults a) (head_folder w a) o 1)) ∧
     fs st2 !! run_path (curr_folder w a) "/data_test/test_features.npy" =
       Some (Npy (pass_args a (set_defaults a) (head_folder w a) o 2))) ∧
    Train.main (curr_folder w a) st2 =
      (Ok {| Train.num_labels := Z.of_nat (length (o_labels_class o));
             Train.num_features := s_num_feature_columns (set_defaults a);
             Train.timesteps := s_timesteps (set_defaults a);
             Train.context_window := s_context_window (set_defaults a);
             Train.frame_width := (s_context_window (set_defaults a) * 2 + 1)%Z;
             Train.train_data := pass_args a (set_defaults a) (head_folder w a) o 0;
             Train.val_data := pass_args a (set_defaults a) (head_folder w a) o 1;
             Train.test_data := pass_args a (set_defaults a) (head_folder w a) o 2 |},
       st3).
Proof.
  intros (o & st1 & Horg & Hl & Hlog & H0 & H1 & H2)%run_files.
  destruct (train_main_eval _ _ _ _ _ _ _ _ _ Hlog H0 H1 H2) as (st3 & Htrain).
  exists o, st1, st3. split_and!; done.
Qed.

(** C3: a successful run has logged the keys [num classes],
    [num total features], [timesteps] and [context window] with the values
    its array files were produced with, and the training script, reading
    the log back as strings and converting with [int], recovers exactly
    these values and the frame width [2 * context_window + 1] of the
    extraction. *)
Theorem provenance_log_round_trip (w : world) (a : args) (st st2 : state) :
  main w a st = (Ok true, st2) →
  ∃ labels rows l st3,
    w_collect_labels w = Ok labels ∧
    fs st2 !! normpath (head_folder w a +:+ features_log) = Some (Csv rows) ∧
    ["num classes"; Py.str (Py.Int (Z.of_nat (length labels)))] ∈ rows ∧
    ["num total features"; Py.str (Py.Int (s_num_feature_columns (set_defaults a)))]
      ∈ rows ∧
    ["timesteps"; Py.str (Py.Int (s_timesteps (set_defaults a)))] ∈ rows ∧
    ["context window"; Py.str (Py.Int (s_context_window (set_defaults a)))] ∈ rows ∧
    Train.main (curr_folder w a) st2 = (Ok l, st3) ∧
    Train.num_labels l = Z.of_nat (length labels) ∧
    Train.num_features l = s_num_feature_columns (set_defaults a) ∧
    Train.timesteps l = s_timesteps (set_defaults a) ∧
    Train.context_window l = s_context_window (set_defaults a) ∧
    Train.frame_width l = (2 * Train.context_window l + 1)%Z ∧
    Train.frame_width l = s_frame_width (set_defaults a) ∧
    Forall (λ data,
              Z.of_nat (length (sa_labels_class data)) = Train.num_labels l ∧
              sa_num_feature_columns data = Train.num_features l ∧
              sa_timesteps data = Train.timesteps l ∧
              sa_frame_width data = Train.frame_width l)
           [Train.train_data l; Train.val_data l; Train.test_data l].
Proof.
  intros (o & st1 & st3 & Horg & Hl & Hlog & _ & Htrain)%train_after_run.
  eexists (o_labels_class o), _, _, st3.
  split_and!; [done| |..|exact Htrain| |done| | | | | ].
  - unfold head_folder. rewrite log_key. exact Hlog.
  - unfold log_rows, csv_rows, dict_info_feature_extraction. simpl.
    do 11 right. left.
  - unfold log_rows, csv_rows, dict_info_feature_extraction. simpl.
    do 4 right. left.
  - unfold log_rows, csv_rows, dict_info_feature_extraction. simpl.
    do 9 right. left.
  - unfold log_rows, csv_rows, dict_info_feature_extraction. simpl.
    do 10 right. left.
  - done.
  - done.
  - done.
  - simpl. lia.
  - done.
  - repeat constructor.
Qed.

Lemma provenance_log_round_trip_witness :
  ∃ l st3,
    Train.main (curr_folder (demo_world "y" reverse all_succeed) script_args)
               (main (demo_world "y" reverse all_succeed) script_args empty_state).2
      = (Ok l, st3) ∧
    Train.num_labels l = 2%Z ∧ Train.num_features l = 120%Z ∧
    Train.timesteps l = 5%Z ∧ Train.context_window l = 5%Z ∧
    Train.frame_width l = 11%Z.
Proof.
  assert (main (demo_world "y" reverse all_succeed) script_args empty_state =
          (Ok true, (main (demo_world "y" reverse all_succeed) script_args
                          empty_state).2)) as Hrun.
  { assert ((main (demo_world "y" reverse all_succeed) script_args empty_state).1
            = Ok true) as Htrue by (vm_compute; reflexivity).
    destruct (main _ _ _) as [r st2]. simpl in Htrue. by rewrite Htrue. }
  destruct (provenance_log_round_trip _ _ _ _ Hrun)
    as (labels & rows & l & st3 & Hl & _ & _ & _ & _ & _ & Htrain & Hn & Hf & Ht & Hc
        & _ & Hw & _).
  injection Hl as <-.
  exists l, st3. split; [exact Htrain|].
  rewrite Hn, Hf, Ht, Hc, Hw. repeat split.
Defined.

Lemma features_filename_paths hf :
  features_filename hf "train" = hf +:+ "/data_train/train_features" ∧
  features_filename hf "val" = hf +:+ "/data_val/val_features" ∧
  features_filename hf "test" = hf +:+ "/data_test/test_features".
Proof.
  unfold features_filename, new_path_of. by rewrite !str_app_assoc.
Qed.

(** C6: after a run that reports success the run folder holds the three
    array files under [data_train/train_features], [data_val/val_features]
    and [data_test/test_features], and these are the files the training
    script names and loads as its train, validation and test data. *)
Theorem array_files_are_where_training_loads_them
    (w : world) (a : args) (st st2 : state) :
  main w a st = (Ok true, st2) →
  (features_filename (head_folder w a) "train"
     = head_folder w a +:+ "/data_train/train_features" ∧
   features_filename (head_folder w a) "val"
     = head_folder w a +:+ "/data_val/val_features" ∧
   features_filename (head_folder w a) "test"
     = head_folder w a +:+ "/data_test/test_features") ∧
  (normpath (Train.filename_train (curr_folder w a))
     = normpath (npy_name (features_filename (head_folder w a) "train")) ∧
   normpath (Train.filename_val (curr_folder w a))
     = normpath (npy_name (features_filename (head_folder w a) "val")) ∧
   normpath (Train.filename_test (curr_folder w a))
     = normpath (npy_name (features_filename (head_folder w a) "test"))) ∧
  ∃ l st3,
    Train.main (curr_folder w a) st2 = (Ok l, st3) ∧
    (fs st2 !! normpath (npy_name (features_filename (head_folder w a) "train"))
       = Some (Npy (Train.train_data l)) ∧
     fs st2 !! normpath (npy_name (features_filename (head_folder w a) "val"))
       = Some (Npy (Train.val_data l)) ∧
     fs st2 !! normpath (npy_name (features_filename (head_folder w a) "test"))
       = Some (Npy (Train.test_data l))) ∧
    (sa_filename (Train.train_data l) = features_filename (head_folder w a) "train" ∧
     sa_filename (Train.val_data l) = features_filename (head_folder w a) "val" ∧
     sa_filename (Train.test_data l) = features_filename (head_folder w a) "test") ∧
    (sa_dataset_index (Train.train_data l) = 0 ∧
     sa_dataset_index (Train.val_data l) = 1 ∧
     sa_dataset_index (Train.test_data l) = 2).
Proof.
  intros Hrun. split; [apply features_filename_paths|].
  destruct (train_keys (curr_folder w a)) as (K0 & K1 & K2).
  assert (∀ name, normpath (npy_name (features_filename (head_folder w a) name)) =
                  run_path (curr_folder w a)
                    ("/data_" +:+ name +:+ "/" +:+ name +:+ "_features.npy")) as Hkey
    by (intros name; unfold head_folder; apply npy_key).
  split; [by rewrite K0, K1, K2, !Hkey|].
  apply train_after_run in Hrun
    as (o & st1 & st3 & _ & _ & _ & (H0 & H1 & H2) & Htrain).
  eexists _, st3. split; [exact Htrain|].
  cbn [Train.train_data Train.val_data Train.test_data].
  rewrite !Hkey. split_and!; done.
Qed.

Lemma array_files_are_where_training_loads_them_witness :
  ∃ l st3,
    Train.main (curr_folder (demo_world "y" reverse all_succeed) script_args)
               (main (demo_world "y" reverse all_succeed) script_args empty_state).2
      = (Ok l, st3) ∧
    sa_filename (Train.train_data l) =
      "./ml_speech_projects/fbank_models_7d10h20m30s/data_train/train_features" ∧
    sa_filename (Train.val_data l) =
      "./ml_speech_projects/fbank_models_7d10h20m30s/data_val/val_features" ∧
    sa_filename (Train.test_data l) =
      "./ml_speech_projects/fbank_models_7d10h20m30s/data_test/test_features".
Proof.
  assert (main (demo_world "y" reverse all_succeed) script_args empty_state =
          (Ok true, (main (demo_world "y" reverse all_succeed) script_args
                          empty_state).2)) as Hrun.
  { assert ((main (demo_world "y" reverse all_succeed) script_args empty_state).1
            = Ok true) as Htrue by (vm_compute; reflexivity).
    destruct (main _ _ _) as [r st2]. simpl in Htrue. by rewrite Htrue. }
  destruct (array_files_are_where_training_loads_them _ _ _ _ Hrun)
    as (_ & _ & l & st3 & Htrain & _ & (F0 & F1 & F2) & _).
  exists l, st3. split; [exact Htrain|].
  rewrite F0, F1, F2. repeat split.
Defined.

(** * Further properties of the two scripts *)

Lemma string_of_uint_digitish d :
  Forall (λ c, digitish c = true)
         (String.list_ascii_of_string (NilEmpty.string_of_uint d)).
Proof. induction d; simpl; by constructor. Qed.

Lemma str_int_digitish z :
  Forall (λ c, digitish c = true) (String.list_ascii_of_string (Py.str_int z)).
Proof.
  unfold Py.str_int, NilZero.string_of_int, NilZero.string_of_uint.
  destruct (Z.to_int z) as [d|d]; destruct d;
    try (by repeat constructor);
    try apply (string_of_uint_digitish (_ _));
    (constructor; [done|]); try (by repeat constructor);
    apply (string_of_uint_digitish (_ _)).
Qed.

Lemma str_int_inj z1 z2 : Py.str_int z1 = Py.str_int z2 → z1 = z2.
Proof.
  intros H. apply (f_equal Py.int_of_str) in H.
  rewrite !int_of_str_str_int in H. by injection H.
Qed.

Lemma split_at_char c s1 s2 r1 r2 :
  c ∉ String.list_ascii_of_string s1 →
  c ∉ String.list_ascii_of_string s2 →
  s1 +:+ String c r1 = s2 +:+ String c r2 →
  s1 = s2 ∧ r1 = r2.
Proof.
  revert s2. induction s1 as [|a s1 IH]; intros [|b s2]; simpl; intros H1 H2.
  - by intros [= ->].
  - intros [= -> _]. destruct H2. by left.
  - intros [= -> _]. destruct H1. by left.
  - rewrite !str_app_cons. intros [= -> H].
    destruct (IH s2) as [-> ->]; [..|done|done].
    + intros Hin. apply H1. by right.
    + intros Hin. apply H2. by right.
Qed.

Lemma str_int_no_letter z c :
  digitish c = false → c ∉ String.list_ascii_of_string (Py.str_int z).
Proof.
  intros Hc Hin. pose proof (str_int_digitish z) as H.
  rewrite Forall_forall in H. apply H in Hin. congruence.
Qed.

Lemma get_date_inj t1 t2 :
  get_date t1 = get_date t2 →
  day t1 = day t2 ∧ hour t1 = hour t2 ∧ minute t1 = minute t2 ∧ second t1 = second t2.
Proof.
  unfold get_date.
  change ("d" +:+ ?x) with (String "d" x).
  intros [Hd H]%split_at_char; [|by apply str_int_no_letter..].
  revert H. change ("h" +:+ ?x) with (String "h" x).
  intros [Hh H]%split_at_char; [|by apply str_int_no_letter..].
  revert H. change ("m" +:+ ?x) with (String "m" x).
  intros [Hm H]%split_at_char; [|by apply str_int_no_letter..].
  revert H. change ("s") with (String "s" "").
  intros [Hs _]%split_at_char; [|by apply str_int_no_letter..].
  by rewrite (str_int_inj _ _ Hd), (str_int_inj _ _ Hh), (str_int_inj _ _ Hm),
    (str_int_inj _ _ Hs).
Qed.

(** X1.  Two runs on the same feature type get the same folder exactly when
    their clocks agree on the day of the month, the hour, the minute and the
    second: the year and the month play no part.  Runs on different feature
    types never share a folder. *)
Theorem run_folder_shared_iff :
  (∀ feature_type t1 t2,
     run_folder feature_type t1 = run_folder feature_type t2 ↔
     day t1 = day t2 ∧ hour t1 = hour t2 ∧ minute t1 = minute t2 ∧
     second t1 = second t2) ∧
  (∀ ft1 ft2 t1 t2,
     ft1 ∈ feature_types → ft2 ∈ feature_types → ft1 ≠ ft2 →
     run_folder ft1 t1 ≠ run_folder ft2 t2).
Proof.
  split.
  - intros ft t1 t2. split.
    + unfold run_folder, head_folder_of, curr_folder_of.
      intros H%(inj _)%(inj _)%(inj _). by apply get_date_inj.
    + intros (? & ? & ? & ?). by apply run_folder_same_clock_fields.
  - intros ft1 ft2 t1 t2 H1 H2 Hne. unfold run_folder, head_folder_of, curr_folder_of.
    intros H%(inj _).
    unfold feature_types in *.
    repeat (apply elem_of_cons in H1 as [->|H1]); [..|by apply elem_of_nil in H1];
    repeat (apply elem_of_cons in H2 as [->|H2]); try (by apply elem_of_nil in H2);
      try (by destruct Hne); cbv [String.append] in H; discriminate H.
Qed.

Lemma run_folder_shared_iff_witness :
  run_folder "stft" march_7 ≠ run_folder "mfcc" march_7.
Proof.
  destruct run_folder_shared_iff as [_ H].
  apply (H "stft" "mfcc" march_7 march_7).
  - unfold feature_types. do 2 right. left.
  - unfold feature_types. left.
  - discriminate.
Defined.

(** ** The training script: reading a run folder *)

Lemma read_only_bind {A B} (m : M A) (k : A → M B) :
  read_only m → (∀ a, read_only (k a)) → read_only (bind m k).
Proof.
  intros Hm Hk st. unfold bind. specialize (Hm st).
  destruct (m st) as [[a|e] st']; simpl in *; subst; [apply Hk|done].
Qed.

Lemma read_only_ret {A} (a : A) : read_only (ret a).
Proof. done. Qed.

Lemma read_only_raise {A} e : read_only (@raise A e).
Proof. done. Qed.

Lemma read_only_lift {A} (r : result A) : read_only (lift r).
Proof. done. Qed.

Lemma read_only_read_file p : read_only (read_file p).
Proof. intros st. unfold read_file. by destruct (fs st !! _). Qed.

Lemma read_only_read_csv p : read_only (Train.read_csv p).
Proof.
  apply read_only_bind; [apply read_only_read_file|]. by intros [].
Qed.

Lemma read_only_np_load p : read_only (Train.np_load p).
Proof.
  apply read_only_bind; [apply read_only_read_file|]. by intros [].
Qed.

Lemma read_only_int_at d key : read_only (Train.int_at d key).
Proof.
  unfold Train.int_at. destruct (d !! key) as [v|]; [|done].
  by destruct (Py.int_of_str v).
Qed.

(** Whatever it returns or raises, the reading part of the training script
    changes the file system only by making its three folders. *)
Lemma train_main_state folder st :
  (Train.main folder st).2 = folders_state (train_folders folder) st.
Proof.
  unfold Train.main. unfold bind at 1. rewrite make_folders_spec.
  fold (train_folders folder).
  match goal with |- (?m _).2 = _ => assert (read_only m) as Hro end; [|apply Hro].
  repeat (apply read_only_bind;
          [first [apply read_only_read_csv | apply read_only_lift
                 | apply read_only_int_at | apply read_only_np_load]|intros ?]).
  apply read_only_ret.
Qed.





Lemma folder_keys folder :
  normpath <$> train_folders folder =
  [run_path folder "/graphs"; run_path folder "/models"; run_path folder "/model_logs"].
Proof. unfold train_folders. simpl. by rewrite !str_app_assoc. Qed.











Lemma feats_dict_of_ok rows d0 :
  Forall (λ row, 2 ≤ length row) rows → ∃ d, Train.feats_dict_of rows d0 = Ok d.
Proof.
  revert d0. induction rows as [|row rows IH]; intros d0 Hall; simpl; [eauto|].
  apply Forall_cons in Hall as [Hrow Hall].
  destruct row as [|k [|v extra]]; simpl in Hrow; [lia..|]. by apply IH.
Qed.



Lemma feats_dict_of_app rows1 rows2 d0 :
  Train.feats_dict_of (rows1 ++ rows2) d0 =
  and_then (Train.feats_dict_of rows1 d0) (Train.feats_dict_of rows2).
Proof.
  revert d0. induction rows1 as [|row rows1 IH]; intros d0; simpl; [done|].
  destruct row as [|k [|v extra]]; [done..|]. apply IH.
Qed.

Lemma feats_dict_of_other_keys rows d0 d k :
  Forall (λ row, head row ≠ Some k) rows →
  Train.feats_dict_of rows d0 = Ok d →
  d !! k = d0 !! k.
Proof.
  revert d0. induction rows as [|row rows IH]; intros d0 Hall; simpl.
  - by intros [= ->].
  - apply Forall_cons in Hall as [Hrow Hall].
    destruct row as [|k' [|v extra]]; [done..|].
    intros Hd%IH; [|done]. rewrite Hd. apply lookup_insert_ne.
    intros ->. by apply Hrow.
Qed.

(** X3.  When every row of the settings log has at least two fields, the
    dictionary the training script builds gives a key the second field of the
    last row that starts with it; earlier rows with the key and further
    fields of the row are ignored. *)
Theorem feats_dict_last_row_wins
    (rows1 rows2 : list (list string)) (k v : string) (extra : list string) :
  Forall (λ row, 2 ≤ length row) (rows1 ++ rows2) →
  Forall (λ row, head row ≠ Some k) rows2 →
  ∃ d, Train.feats_dict_of (rows1 ++ (k :: v :: extra) :: rows2) ∅ = Ok d ∧
       d !! k = Some v.
Proof.
  intros [H1 H2]%Forall_app Hlater. rewrite feats_dict_of_app.
  destruct (feats_dict_of_ok rows1 ∅ H1) as (d1 & ->). simpl.
  destruct (feats_dict_of_ok rows2 (<[k:=v]> d1) H2) as (d & Hd).
  exists d. split; [done|].
  apply (feats_dict_of_other_keys _ _ _ k) in Hd; [|done].
  by rewrite Hd, lookup_insert_eq.
Qed.

Lemma feats_dict_last_row_wins_witness :
  ∃ d, Train.feats_dict_of [["timesteps"; "3"]; ["timesteps"; "5"; "x"];
                            ["context window"; "5"]] ∅ = Ok d ∧
       d !! "timesteps" = Some "5".
Proof.
  apply (feats_dict_last_row_wins [["timesteps"; "3"]] [["context window"; "5"]]
           "timesteps" "5" ["x"]).
  - repeat constructor.
  - repeat constructor. discriminate.
Defined.



Lemma folders_state_trace folders st :
  ∃ evs, trace (folders_state folders st) = trace st ++ evs ∧
         Forall (λ e, is_makedirs e = true) evs.
Proof.
  revert st. induction folders as [|p folders IH]; intros st.
  - exists []. by rewrite app_nil_r.
  - change (folders_state (p :: folders) st)
      with (folders_state folders (make_dir_state p st)).
    destruct (IH (make_dir_state p st)) as (evs & -> & Hevs).
    unfold make_dir_state. destruct (fs st !! _); simpl.
    + by exists evs.
    + exists (E_makedirs p :: evs). rewrite <- app_assoc. split; [done|]. by constructor.
Qed.

Lemma folders_state_new folders st k v :
  fs st !! k = None → fs (folders_state folders st) !! k = Some v →
  v = Dir ∧ k ∈ normpath <$> folders.
Proof.
  revert st. induction folders as [|p folders IH]; intros st Hnone Hsome.
  - unfold folders_state in Hsome. simpl in Hsome. congruence.
  - change (folders_state (p :: folders) st)
      with (folders_state folders (make_dir_state p st)) in Hsome.
    destruct (fs (make_dir_state p st) !! k) as [v'|] eqn:Hk.
    + rewrite (folders_state_keeps _ _ _ _ Hk) in Hsome. injection Hsome as <-.
      revert Hk. unfold make_dir_state.
      destruct (fs st !! normpath p) eqn:Hp; [congruence|]. simpl.
      destruct (decide (normpath p = k)) as [<-|Hne].
      * rewrite lookup_insert_eq. intros [= <-]. split; [done|]. by left.
      * rewrite lookup_insert_ne by done. congruence.
    + destruct (IH _ Hk Hsome) as [-> Hin]. split; [done|]. by right.
Qed.

(** X5.  The housekeeping and reading steps of the training script (making
    its folders, reading the settings log, loading the three arrays) keep
    every file there is and call nothing that changes the file system but
    [os.makedirs]; in a project folder that is there, they add nothing but
    the folders [graphs], [models] and [model_logs]. *)
Theorem train_main_keeps_files (folder : string) (st : state) :
  (∀ k v, fs st !! k = Some v → fs (Train.main folder st).2 !! k = Some v) ∧
  (project_folder_there folder st →
   ∀ k v, fs st !! k = None → fs (Train.main folder st).2 !! k = Some v →
     v = Dir ∧
     k ∈ [run_path folder "/graphs"; run_path folder "/models";
          run_path folder "/model_logs"]) ∧
  ∃ evs, trace (Train.main folder st).2 = trace st ++ evs ∧
         Forall (λ e, is_makedirs e = true) evs.
Proof.
  rewrite train_main_state. split_and!.
  - intros k v. apply folders_state_keeps.
  - intros _ k v Hnone Hsome. rewrite <- folder_keys. by eapply folders_state_new.
  - apply folders_state_trace.
Qed.

Lemma train_main_keeps_files_witness :
  fs (Train.main "run" (tiny_log [["num classes"; "2"]])).2
    !! run_path "run" "/features_log.csv" = Some (Csv [["num classes"; "2"]]) ∧
  (∀ k v, fs (tiny_log [["num classes"; "2"]]) !! k = None →
     fs (Train.main "run" (tiny_log [["num classes"; "2"]])).2 !! k = Some v →
     v = Dir).
Proof.
  destruct (train_main_keeps_files "run" (tiny_log [["num classes"; "2"]]))
    as (Hkept & Hnew & _).
  split.
  - apply Hkept. reflexivity.
  - intros k v Hnone Hsome.
    destruct (Hnew ltac:(reflexivity) k v Hnone Hsome) as [Hdir _]. exact Hdir.
Defined.

(** ** The extraction script: what a run changes *)


Lemma dirs_state_fs_ext hf names st st' :
  fs st = fs st' → fs (dirs_state hf names st) = fs (dirs_state hf names st').
Proof.
  revert st st'. induction names as [|i names IH]; intros st st' Hfs; [done|].
  change (dirs_state hf (i :: names) ?s)
    with (dirs_state hf names (make_dir_state (new_path_of hf i) s)).
  apply IH. unfold make_dir_state. rewrite Hfs.
  by destruct (fs st' !! _); simpl; rewrite ?Hfs.
Qed.


(** Two calls that differ in their arguments alone organize alike: the same
    result, the same calls, and the same files but for the provenance log. *)
Lemma organize_args w a a' s s' ts ts' hf st :
  (organize w a' s' ts' hf st).1 = (organize w a s ts hf st).1 ∧
  trace (organize w a' s' ts' hf st).2 = trace (organize w a s ts hf st).2 ∧
  ∀ k, k ≠ normpath (hf +:+ features_log) →
       fs (organize w a' s' ts' hf st).2 !! k = fs (organize w a s ts hf st).2 !! k.
Proof.
  run_organize.
  destruct (w_collect_labels w) as [labels|e]; simpl; [|done].
  destruct (accepts (input_line w)); simpl; [|done].
  destruct (w_create_save_dict_labels_encode w) as [dle|e]; simpl; [|done].
  rewrite !dataset_dirs_spec; cbn [fst snd fs trace].
  repeat match goal with
  | |- context [match ?x with Ok _ => _ | Raise _ => _ end] =>
      destruct x as [?|?]; cbn [fst snd fs trace]
  end;
  (split_and!; [done..|]); intros k Hk; by rewrite ?lookup_insert_ne by done.
Qed.

Lemma pass_done_fs a s hf o i st :
  fs (pass_done a s hf o i st) = <[npy_key_of hf i := Npy (pass_args a s hf o i)]> (fs st).
Proof. reflexivity. Qed.

Lemma pass_done_trace a s hf o i st :
  trace (pass_done a s hf o i st) = trace st ++ [E_save_feats2npy i].
Proof. reflexivity. Qed.

(** The feature extraction changes only the three array files. *)
Lemma feature_extraction_fs w a s hf o st k :
  o_train_val_test_filenames o = features_filename hf <$> split_names →
  (∀ i, i < 3 → k ≠ npy_key_of hf i) →
  fs (feature_extraction w a s hf o st).2 !! k = fs st !! k.
Proof.
  intros Hf Hk. rewrite feature_extraction_eval by done.
  pose proof (Hk 0 ltac:(lia)) as H0. pose proof (Hk 1 ltac:(lia)) as H1.
  pose proof (Hk 2 ltac:(lia)) as H2.
  repeat match goal with
  | |- context [match ?x with Ok _ => _ | Raise _ => _ end] => destruct x as [?|?]
  | |- context [if ?b then _ else _] => destruct b
  end; cbn [snd called fs]; rewrite ?pass_done_fs, ?lookup_insert_ne by done; done.
Qed.

(** From two states with the same calls so far and the same files but for
    one entry, the feature extraction ends alike. *)
Lemma feature_extraction_states w a s hf o st st' K :
  o_train_val_test_filenames o = features_filename hf <$> split_names →
  trace st = trace st' →
  (∀ k, k ≠ K → fs st !! k = fs st' !! k) →
  (feature_extraction w a s hf o st).1 = (feature_extraction w a s hf o st').1 ∧
  trace (feature_extraction w a s hf o st).2 = trace (feature_extraction w a s hf o st').2 ∧
  ∀ k, k ≠ K → fs (feature_extraction w a s hf o st).2 !! k
               = fs (feature_extraction w a s hf o st').2 !! k.
Proof.
  intros Hf Htr Hfs. rewrite !feature_extraction_eval by done.
  assert (∀ i st1 st2,
            (∀ k, k ≠ K → fs st1 !! k = fs st2 !! k) →
            ∀ k, k ≠ K → fs (pass_done a s hf o i st1) !! k
                         = fs (pass_done a s hf o i st2) !! k) as Hstep.
  { intros i st1 st2 H k Hk. rewrite !pass_done_fs.
    destruct (decide (npy_key_of hf i = k)) as [->|Hne].
    - by rewrite !lookup_insert_eq.
    - rewrite !lookup_insert_ne by done. by apply H. }
  repeat match goal with
  | |- context [match ?x with Ok _ => _ | Raise _ => _ end] => destruct x as [?|?]
  | |- context [if ?b then _ else _] => destruct b
  end; cbn [fst snd called fs trace];
  (split_and!; [done|rewrite ?pass_done_trace; congruence|]);
  repeat apply Hstep; done.
Qed.

Lemma head_folder_with_noise w a v : head_folder w (with_noise a v) = head_folder w a.
Proof. reflexivity. Qed.

Lemma npy_key_of_run folder i :
  npy_key_of (head_folder_beg +:+ folder) i =
  run_path folder ("/data_" +:+ nth i split_names "" +:+ "/" +:+
                   nth i split_names "" +:+ "_features.npy").
Proof. apply npy_key. Qed.

Lemma npy_key_of_inj folder i j :
  i < 3 → j < 3 →
  npy_key_of (head_folder_beg +:+ folder) i = npy_key_of (head_folder_beg +:+ folder) j →
  i = j.
Proof.
  intros Hi Hj. rewrite !npy_key_of_run. intros H%run_path_inj.
  destruct i as [|[|[|i]]]; [..|lia]; destruct j as [|[|[|j]]]; try lia;
    try reflexivity; cbv in H; discriminate H.
Qed.

Lemma npy_key_of_not_log folder i :
  i < 3 →
  run_path folder "/features_log.csv" ≠ npy_key_of (head_folder_beg +:+ folder) i.
Proof.
  intros Hi. rewrite npy_key_of_run. intros H%run_path_inj.
  destruct i as [|[|[|i]]]; [..|lia]; cbv in H; discriminate H.
Qed.

(** X6.  The value of [noise] reaches the settings log and nothing else:
    with another value [main] returns or raises the same, makes the same
    calls in the same order, leaves the same files but for the log, and gives
    [save_feats2npy] the same arguments in each pass. *)
Theorem noise_flag_is_only_logged (w : world) (a : args) (v : Py.val) (st : state) :
  (main w (with_noise a v) st).1 = (main w a st).1 ∧
  trace (main w (with_noise a v) st).2 = trace (main w a st).2 ∧
  (∀ k, k ≠ run_path (curr_folder w a) "/features_log.csv" →
     fs (main w (with_noise a v) st).2 !! k = fs (main w a st).2 !! k) ∧
  (∀ s o i, pass_args (with_noise a v) s (head_folder w a) o i
            = pass_args a s (head_folder w a) o i).
Proof.
  destruct (organize_args w a (with_noise a v) (set_defaults a) (set_defaults a)
              (get_date (now w)) (get_date (now w)) (head_folder w a)
              (make_dir_state (head_folder w a) st)) as (Hr & Htr & Hfs).
  rewrite !main_eval. unfold organize_run.
  change (set_defaults (with_noise a v)) with (set_defaults a).
  rewrite head_folder_with_noise.
  unfold head_folder in Hfs at 1. rewrite log_key in Hfs.
  destruct (organize w (with_noise a v) _ _ _ _) as [r' st1'] eqn:Horg'.
  destruct (organize w a _ _ _ _) as [r st1] eqn:Horg.
  simpl in Hr, Htr, Hfs. subst r'.
  destruct r as [o|e].
  - assert (o_train_val_test_filenames o
            = features_filename (head_folder w a) <$> split_names) as Hf
      by (by eapply (organize_run_filenames w a st)).
    assert (∀ st0, feature_extraction w (with_noise a v) (set_defaults a)
                     (head_folder w a) o st0
                   = feature_extraction w a (set_defaults a) (head_folder w a) o st0)
      as Hsame by (intros st0; by rewrite !feature_extraction_eval).
    rewrite Hsame.
    destruct (feature_extraction_states w a (set_defaults a) (head_folder w a) o
                st1' st1 (run_path (curr_folder w a) "/features_log.csv") Hf Htr Hfs)
      as (H1 & H2 & H3).
    done.
  - destruct (bool_decide _); simpl; split_and!; try done; by rewrite Htr.
Qed.

(** X7.  When the data organization goes through and pass [i] is the first
    that fails, [main] returns [False] after calling [save_feats2npy] for the
    passes 0 to [i] and no further: the array files of the passes before [i]
    hold what those passes were given, and those of the passes from [i] on
    are as the data organization left them. *)
Theorem failed_pass_stops_extraction
    (w : world) (a : args) (st st1 : state) (o : organized) (i : nat) :
  organize_run w a st = (Ok o, st1) →
  i < 3 → (∀ j, j < i → pass_succeeds w j) → pass_fails w i →
  (main w a st).1 = Ok false ∧
  trace (main w a st).2 = trace st1 ++ (E_save_feats2npy <$> seq 0 (S i)) ∧
  (∀ j, j < i →
     fs (main w a st).2 !! npy_key_of (head_folder w a) j
       = Some (Npy (pass_args a (set_defaults a) (head_folder w a) o j))) ∧
  (∀ j, i ≤ j → j < 3 →
     fs (main w a st).2 !! npy_key_of (head_folder w a) j
       = fs st1 !! npy_key_of (head_folder w a) j).
Proof.
  intros Horg Hi Hbefore (v & Hv & Hfalse).
  pose proof (organize_run_filenames _ _ _ _ _ Horg) as Hf.
  rewrite main_eval, Horg, feature_extraction_eval by done.
  assert (∀ j j', j < 3 → j' < 3 → j ≠ j' →
            npy_key_of (head_folder w a) j ≠ npy_key_of (head_folder w a) j') as Hne
    by (intros j j' ? ? Hjj Heq; apply Hjj; by eapply npy_key_of_inj).
  destruct i as [|i].
  { rewrite Hv, Hfalse. cbn [negb fst snd called fs trace seq fmap list_fmap].
    split_and!; [done..|intros; lia|done]. }
  destruct (Hbefore 0) as (v0 & Hv0 & Ht0); [lia|]. rewrite Hv0, Ht0.
  cbn [negb]. cbv zeta.
  destruct i as [|i].
  { rewrite Hv, Hfalse. cbn [negb fst snd called fs trace].
    rewrite pass_done_fs, pass_done_trace.
    split_and!; [done|by rewrite <- app_assoc| |].
    - intros j Hj. assert (j = 0) as -> by lia. by rewrite lookup_insert_eq.
    - intros j Hj1 Hj2. rewrite lookup_insert_ne; [done|]. apply Hne; lia. }
  destruct (Hbefore 1) as (v1 & Hv1 & Ht1); [lia|]. rewrite Hv1, Ht1.
  cbn [negb]. cbv zeta.
  destruct i as [|i]; [|lia].
  rewrite Hv, Hfalse. cbn [negb fst snd called fs trace].
  rewrite !pass_done_fs, !pass_done_trace.
  split_and!; [done|by rewrite <- !app_assoc| |].
  - intros j Hj. destruct j as [|[|j]]; [| |lia].
    + rewrite lookup_insert_ne by (apply Hne; lia). by rewrite lookup_insert_eq.
    + by rewrite lookup_insert_eq.
  - intros j Hj1 Hj2. rewrite !lookup_insert_ne; [done|apply Hne; lia..].
Qed.

Lemma failed_pass_stops_extraction_witness :
  (main (demo_world "y" reverse second_fails) script_args empty_state).1 = Ok false.
Proof.
  destruct (organize_run (demo_world "y" reverse second_fails) script_args empty_state)
    as [[o|e] st1] eqn:Horg.
  - apply (failed_pass_stops_extraction _ _ _ st1 o 1 Horg).
    + lia.
    + intros j Hj. exists Py.True_. destruct j as [|j]; [split; reflexivity|lia].
    + exists Py.False_. split; reflexivity.
  - apply (f_equal fst) in Horg. vm_compute in Horg. discriminate Horg.
Defined.

(** X8.  The settings log is written before the feature extraction starts and
    is not touched by it: whenever the data organization goes through, and so
    whenever [main] returns, be it [True] or [False], the log of the run
    holds the settings and the number of labels of this run. *)
Theorem provenance_log_is_written_before_extraction
    (w : world) (a : args) (st : state) :
  (∀ o st1,
     organize_run w a st = (Ok o, st1) →
     w_collect_labels w = Ok (o_labels_class o) ∧
     fs (main w a st).2 !! run_path (curr_folder w a) "/features_log.csv"
       = Some (Csv (log_rows a (set_defaults a) (o_labels_class o)
                      (get_date (now w))))) ∧
  (∀ b, (main w a st).1 = Ok b →
     ∃ labels,
       w_collect_labels w = Ok labels ∧
       fs (main w a st).2 !! run_path (curr_folder w a) "/features_log.csv"
         = Some (Csv (log_rows a (set_defaults a) labels (get_date (now w))))).
Proof.
  assert (∀ o st1,
     organize_run w a st = (Ok o, st1) →
     w_collect_labels w = Ok (o_labels_class o) ∧
     fs (main w a st).2 !! run_path (curr_folder w a) "/features_log.csv"
       = Some (Csv (log_rows a (set_defaults a) (o_labels_class o)
                      (get_date (now w))))) as Hlog.
  { intros o st1 Horg.
    pose proof (organize_run_filenames _ _ _ _ _ Horg) as Hf.
    rewrite main_eval, Horg.
    rewrite feature_extraction_fs;
      [|done|intros i Hi; by apply npy_key_of_not_log].
    unfold organize_run in Horg.
    apply organize_ok in Horg
      as (labels & dle & audio & ms & nums & devs & Hl & _ & _ & _ & _ & _ & _ & ->
          & Hlog & _).
    unfold head_folder in Hlog. rewrite log_key in Hlog. done. }
  split; [done|].
  intros b Hb. rewrite main_eval in Hb.
  destruct (organize_run w a st) as [[o|e] st1] eqn:Horg.
  - destruct (Hlog o st1 eq_refl) as [? ?]. eauto.
  - by destruct (bool_decide _).
Qed.

Lemma provenance_log_is_written_before_extraction_witness :
  ∃ labels,
    w_collect_labels (demo_world "y" reverse second_fails) = Ok labels ∧
    fs (main (demo_world "y" reverse second_fails) script_args empty_state).2
      !! run_path (curr_folder (demo_world "y" reverse second_fails) script_args)
                  "/features_log.csv"
    = Some (Csv (log_rows script_args (set_defaults script_args) labels
                   (get_date (now (demo_world "y" reverse second_fails))))).
Proof.
  destruct (provenance_log_is_written_before_extraction
              (demo_world "y" reverse second_fails) script_args empty_state)
    as [_ H].
  apply (H false). vm_compute. reflexivity.
Defined.




Lemma noise_flag_is_only_logged_witness :
  fs (main (demo_world "y" reverse all_succeed)
           (with_noise script_args Py.False_) empty_state).2
    !! "ml_speech_projects/elsewhere.csv"
  = fs (main (demo_world "y" reverse all_succeed) script_args empty_state).2
      !! "ml_speech_projects/elsewhere.csv".
Proof.
  destruct (noise_flag_is_only_logged (demo_world "y" reverse all_succeed)
              script_args Py.False_ empty_state) as (_ & _ & Hfs & _).
  apply Hfs. intros Heq. cbv in Heq. discriminate Heq.
Defined.

(** ** The training script: its output paths *)

Lemma get_date_app_inj t1 t2 x :
  get_date t1 +:+ x = get_date t2 +:+ x →
  day t1 = day t2 ∧ hour t1 = hour t2 ∧ minute t1 = minute t2 ∧ second t1 = second t2.
Proof.
  unfold get_date. rewrite !str_app_assoc.
  change ("d" +:+ ?x) with (String "d" x).
  intros [Hd H]%split_at_char; [|by apply str_int_no_letter..].
  revert H. change ("h" +:+ ?x) with (String "h" x).
  intros [Hh H]%split_at_char; [|by apply str_int_no_letter..].
  revert H. change ("m" +:+ ?x) with (String "m" x).
  intros [Hm H]%split_at_char; [|by apply str_int_no_letter..].
  revert H. change ("s" +:+ ?x) with (String "s" x).
  intros [Hs _]%split_at_char; [|by apply str_int_no_letter..].
  by rewrite (str_int_inj _ _ Hd), (str_int_inj _ _ Hh), (str_int_inj _ _ Hm),
    (str_int_inj _ _ Hs).
Qed.

Lemma str_app_length (s1 s2 : string) :
  String.length (s1 +:+ s2) = String.length s1 + String.length s2.
Proof. induction s1 as [|c s1 IH]; [done|]. rewrite str_app_cons. simpl. by rewrite IH. Qed.

Lemma train_outputs_eq folder mt t :
  train_outputs folder mt t =
  (λ name, (head_folder_beg +:+ folder) +:+ name) <$>
    [ "/model_logs/" +:+ modelname mt (get_date t) +:+ "_log.csv";
      "/models/checkpoint_" +:+ modelname mt (get_date t) +:+ ".h5";
      "/models/" +:+ modelname mt (get_date t) +:+ ".h5";
      "/graphs/" +:+ modelname mt (get_date t) +:+ "_LOSS.png";
      "/graphs/" +:+ modelname mt (get_date t) +:+ "_ACCURACY.png";
      "/model_logs/" +:+ modelname mt (get_date t) +:+ ".csv" ].
Proof.
  unfold train_outputs. cbn [fmap list_fmap]. by rewrite !str_app_assoc.
Qed.

Lemma str_app_neq_length (s1 s2 : string) :
  String.length s1 ≠ String.length s2 → s1 ≠ s2.
Proof. congruence. Qed.

Lemma chars_app (s1 s2 : string) :
  String.list_ascii_of_string (s1 +:+ s2) =
  String.list_ascii_of_string s1 ++ String.list_ascii_of_string s2.
Proof. induction s1 as [|c s1 IH]; [done|]. rewrite str_app_cons. simpl. by rewrite IH. Qed.

Lemma no_slash_chars (s : string) :
  Py.str_in "/" s = false ↔ "/"%char ∉ String.list_ascii_of_string s.
Proof.
  rewrite <- (str_in_char "/" s). destruct (Py.str_in "/" s); split; (done || congruence).
Qed.

Lemma upper_no_slash (s : string) :
  "/"%char ∉ String.list_ascii_of_string s →
  "/"%char ∉ String.list_ascii_of_string (upper s).
Proof.
  induction s as [|c s IH]; [done|]. simpl. rewrite !not_elem_of_cons.
  intros [Hc Hs]. split; [|by apply IH].
  intros Heq. apply Hc. clear -Heq.
  destruct c as [[] [] [] [] [] [] [] []]; cbv in Heq; (discriminate Heq || reflexivity).
Qed.

Lemma get_date_no_slash (t : datetime) :
  "/"%char ∉ String.list_ascii_of_string (get_date t).
Proof.
  unfold get_date. rewrite !chars_app, !elem_of_app.
  intros [H|[H|[H|[H|[H|[H|[H|H]]]]]]];
    try (by apply str_int_no_letter in H);
    repeat (apply elem_of_cons in H as [H|H]; [discriminate H|]);
    by apply elem_of_nil in H.
Qed.

Lemma modelname_no_slash (model_type : string) (t : datetime) :
  Py.str_in "/" model_type = false →
  "/"%char ∉ String.list_ascii_of_string (modelname model_type (get_date t)).
Proof.
  intros Hmt%no_slash_chars. unfold modelname. rewrite !chars_app, !elem_of_app.
  intros [H|[H|H]].
  - by apply upper_no_slash in H.
  - repeat (apply elem_of_cons in H as [H|H]; [discriminate H|]).
    by apply elem_of_nil in H.
  - by apply get_date_no_slash in H.
Qed.

(** X10.  The six output paths the training script builds (for the logger
    of the training, the checkpoint, the model, the two plots and the table
    of the parameters) are six different paths; when the model type has no
    [/] in it, each is a file name without [/] directly inside one of the
    folders [graphs], [models] and [model_logs] made at the start.  For the
    model types [cnn], [lstm] and [cnnlstm], two trainings on the same
    project folder build the same six paths exactly when they have the same
    model type and their clocks agree on the day of the month, the hour, the
    minute and the second. *)
Theorem train_outputs_named :
  (∀ folder model_type time,
     NoDup (train_outputs folder model_type time) ∧
     (Py.str_in "/" model_type = false →
      ∀ path, path ∈ train_outputs folder model_type time →
        ∃ made name, made ∈ train_folders folder ∧ path = made +:+ "/" +:+ name ∧
                     Py.str_in "/" name = false)) ∧
  (∀ folder mt1 mt2 t1 t2,
     mt1 ∈ model_types → mt2 ∈ model_types →
     (train_outputs folder mt1 t1 = train_outputs folder mt2 t2 ↔
      mt1 = mt2 ∧ day t1 = day t2 ∧ hour t1 = hour t2 ∧ minute t1 = minute t2 ∧
      second t1 = second t2)).
Proof.
  split.
  - intros folder mt t. split.
    + rewrite train_outputs_eq. apply NoDup_fmap; [apply _|].
      set (M := modelname mt (get_date t)).
      assert (∀ a b : string, a ≠ b → M +:+ a ≠ M +:+ b) as Hsuf
        by (intros a b Hab H%(inj _); done).
      repeat (apply NoDup_cons; split;
              [rewrite ?elem_of_cons, elem_of_nil; intros H|]);
        [..|apply NoDup_nil_2].
      all: repeat (destruct H as [H|H]); try done.
      all: try (cbv [String.append] in H; fold String.append in H; discriminate H).
      all: try (apply (inj (String.append "/model_logs/")) in H; revert H; by apply Hsuf).
      all: try (apply (inj (String.append "/graphs/")) in H; revert H; by apply Hsuf).
      all: try (change ("/models/checkpoint_" +:+ ?x) with ("/models/" +:+ "checkpoint_" +:+ x) in H;
                apply (inj (String.append "/models/")) in H;
                apply (f_equal String.length) in H;
                rewrite !str_app_length in H; simpl in H; lia).
    + intros Hmt path Hin. unfold train_outputs in Hin. cbv zeta in Hin.
      unfold train_folders.
      pose proof (modelname_no_slash mt t Hmt) as HM.
      assert (∀ pre post : string,
                "/"%char ∉ String.list_ascii_of_string pre →
                "/"%char ∉ String.list_ascii_of_string post →
                Py.str_in "/" (pre +:+ modelname mt (get_date t) +:+ post) = false)
        as Hname.
      { intros pre post Hpre Hpost. apply no_slash_chars.
        rewrite !chars_app, !elem_of_app. by intros [?|[?|?]]. }
      assert (∀ l : list ascii, Forall (λ c, c ≠ "/"%char) l → "/"%char ∉ l) as Hlit.
      { intros l Hl Hin'. rewrite Forall_forall in Hl. by apply (Hl _ Hin'). }
      repeat (apply elem_of_cons in Hin as [->|Hin]); [..|by apply elem_of_nil in Hin].
      * exists ((head_folder_beg +:+ folder) +:+ "/model_logs"),
               ("" +:+ modelname mt (get_date t) +:+ "_log.csv").
        split_and!; [do 2 right; left|reflexivity|].
        apply Hname; apply Hlit; repeat constructor; discriminate.
      * exists ((head_folder_beg +:+ folder) +:+ "/models"),
               ("checkpoint_" +:+ modelname mt (get_date t) +:+ ".h5").
        split_and!; [right; left| |].
        -- rewrite !str_app_assoc.
           change ("/checkpoint_" +:+ ?x) with ("/" +:+ "checkpoint_" +:+ x). reflexivity.
        -- apply Hname; apply Hlit; repeat constructor; discriminate.
      * exists ((head_folder_beg +:+ folder) +:+ "/models"),
               ("" +:+ modelname mt (get_date t) +:+ ".h5").
        split_and!; [right; left|by rewrite !str_app_assoc|].
        apply Hname; apply Hlit; repeat constructor; discriminate.
      * exists ((head_folder_beg +:+ folder) +:+ "/graphs"),
               ("" +:+ modelname mt (get_date t) +:+ "_LOSS.png").
        split_and!; [left|reflexivity|].
        apply Hname; apply Hlit; repeat constructor; discriminate.
      * exists ((head_folder_beg +:+ folder) +:+ "/graphs"),
               ("" +:+ modelname mt (get_date t) +:+ "_ACCURACY.png").
        split_and!; [left|reflexivity|].
        apply Hname; apply Hlit; repeat constructor; discriminate.
      * exists ((head_folder_beg +:+ folder) +:+ "/model_logs"),
               ("" +:+ modelname mt (get_date t) +:+ ".csv").
        split_and!; [do 2 right; left|reflexivity|].
        apply Hname; apply Hlit; repeat constructor; discriminate.
  - intros folder mt1 mt2 t1 t2 H1 H2. split.
    + rewrite !train_outputs_eq. cbn [fmap list_fmap]. intros [= H _].
      apply (inj _), (inj (String.append "/model_logs/")) in H.
      unfold modelname in H. unfold model_types in *.
      repeat (apply elem_of_cons in H1 as [->|H1]); [..|by apply elem_of_nil in H1];
      repeat (apply elem_of_cons in H2 as [->|H2]); try (by apply elem_of_nil in H2).
      all: try (cbv [String.append upper upper_char nat_of_ascii] in H; discriminate H).
      all: split; [done|]; rewrite !str_app_assoc in H.
      all: apply (inj _), (inj _) in H; by apply get_date_app_inj in H.
    + intros (-> & Hd & Hh & Hm & Hs). unfold train_outputs.
      unfold get_date. by rewrite Hd, Hh, Hm, Hs.
Qed.

Lemma train_outputs_named_witness :
  train_outputs "run" "cnnlstm" march_7 = train_outputs "run" "cnnlstm" april_7 ∧
  ∃ made name,
    made ∈ train_folders "run" ∧
    "./ml_speech_projects/run/models/CNNLSTM_speech_commands_7d10h20m30s.h5"
      = made +:+ "/" +:+ name ∧
    Py.str_in "/" name = false.
Proof.
  destruct train_outputs_named as [Hpaths Hsame]. split.
  - apply (Hsame "run" "cnnlstm" "cnnlstm" march_7 april_7).
    + unfold model_types. do 2 right. left.
    + unfold model_types. do 2 right. left.
    + split; [|split; [|split; [|split]]]; reflexivity.
  - destruct (Hpaths "run" "cnnlstm" march_7) as [_ Hinside].
    apply Hinside; [reflexivity|]. do 2 right. left.
Defined.

(** ** The extraction script: a run into a folder that is there already *)

Lemma make_dir_state_file p st k v :
  v ≠ Dir → fs (make_dir_state p st) !! k = Some v → fs st !! k = Some v.
Proof.
  intros Hv. unfold make_dir_state. destruct (fs st !! normpath p) eqn:Hp; [done|].
  cbn [fs]. destruct (decide (normpath p = k)) as [->|Hne].
  - rewrite lookup_insert_eq. by intros [= <-].
  - by rewrite lookup_insert_ne.
Qed.

Lemma dirs_state_file hf names st k v :
  v ≠ Dir → fs (dirs_state hf names st) !! k = Some v → fs st !! k = Some v.
Proof.
  intros Hv. revert st. induction names as [|i names IH]; intros st; [done|].
  change (dirs_state hf (i :: names) st)
    with (dirs_state hf names (make_dir_state (new_path_of hf i) st)).
  intros H%IH. by eapply make_dir_state_file.
Qed.

(** The data organization returns or raises the same from any two states,
    and a file it leaves is one it found or one it writes from either. *)
Lemma organize_states w a s ts hf st st' :
  (organize w a s ts hf st).1 = (organize w a s ts hf st').1 ∧
  ∀ k v, v ≠ Dir → fs (organize w a s ts hf st).2 !! k = Some v →
         fs st !! k = Some v ∨ fs (organize w a s ts hf st').2 !! k = Some v.
Proof.
  assert (∀ (m : gmap string file) key rows k v,
            <[key := Csv rows]> m !! k = Some v →
            m !! k = Some v ∨ ∀ m' : gmap string file, <[key := Csv rows]> m' !! k = Some v) as Hlog.
  { intros m key rows k v. destruct (decide (key = k)) as [->|Hne].
    - rewrite lookup_insert_eq. intros [= <-]. right. intros m'. by rewrite lookup_insert_eq.
    - rewrite lookup_insert_ne by done. by left. }
  run_organize.
  destruct (w_collect_labels w) as [labels|e]; simpl; [|by split; [|left]].
  destruct (accepts (input_line w)); simpl; [|by split; [|left]].
  destruct (w_create_save_dict_labels_encode w) as [dle|e]; simpl; [|by split; [|left]].
  rewrite !dataset_dirs_spec; cbn [fst snd fs trace].
  repeat match goal with
  | |- context [match ?x with Ok _ => _ | Raise _ => _ end] =>
      destruct x as [?|?]; cbn [fst snd fs trace]
  end;
  (split; [reflexivity|]); intros k v Hv H;
  try (left; by eapply (dirs_state_file hf _ _ k v Hv) in H);
  (apply Hlog in H as [H|H];
   [left; by eapply (dirs_state_file hf _ _ k v Hv) in H|right; apply H]).
Qed.

Lemma feature_extraction_disk w a s hf o st st' :
  o_train_val_test_filenames o = features_filename hf <$> split_names →
  (feature_extraction w a s hf o st).1 = (feature_extraction w a s hf o st').1 ∧
  ∀ k, (fs (feature_extraction w a s hf o st).2 !! k = fs st !! k ∧
        fs (feature_extraction w a s hf o st').2 !! k = fs st' !! k) ∨
       fs (feature_extraction w a s hf o st).2 !! k
         = fs (feature_extraction w a s hf o st').2 !! k.
Proof.
  intros Hf. rewrite !feature_extraction_eval by done.
  repeat match goal with
  | |- context [match ?x with Ok _ => _ | Raise _ => _ end] => destruct x as [?|?]
  | |- context [if ?b then _ else _] => destruct b
  end; cbn [fst snd called fs]; (split; [reflexivity|]); intros k;
  rewrite ?pass_done_fs; cbn [called fs];
  repeat match goal with
  | |- context [<[?key := _]> _ !! k] =>
      destruct (decide (key = k)) as [<-|?];
      [right; by rewrite !lookup_insert_eq
      |rewrite !(lookup_insert_ne _ key k) by done]
  end; by left.
Qed.

(** X11.  A run folder that is there already never stops or changes a run.
    Take two states of the file system in which the folder of the projects
    is there and no regular file stands at the path of the run folder, for
    a feature type without [/]: given the same answers of the collaborating
    modules, [main] returns or raises the same from both, the folder of the
    run and its data directories being there already or not; and a file
    (not a directory) found after the run was there before it, or is
    written with the same content whatever the disk held, so that the log
    and the arrays of an earlier run in the same folder are replaced. *)
Theorem existing_folder_is_reused_silently (w : world) (a : args) (st st' : state) :
  Py.str_in "/" (feature_type a) = false →
  projects_folder_there st → no_file_at (head_folder w a) st →
  projects_folder_there st' → no_file_at (head_folder w a) st' →
  (main w a st).1 = (main w a st').1 ∧
  ∀ k v, v ≠ Dir → fs (main w a st).2 !! k = Some v →
         fs st !! k = Some v ∨ fs (main w a st').2 !! k = Some v.
Proof.
  intros _ _ _ _ _.
  rewrite !main_eval. unfold organize_run.
  destruct (organize_states w a (set_defaults a) (get_date (now w)) (head_folder w a)
              (make_dir_state (head_folder w a) st)
              (make_dir_state (head_folder w a) st')) as [Hres Hfs].
  destruct (organize _ _ _ _ _ (make_dir_state (head_folder w a) st))
    as [r st1] eqn:Horg.
  destruct (organize _ _ _ _ _ (make_dir_state (head_folder w a) st'))
    as [r' st1'] eqn:Horg'.
  cbn [fst snd] in Hres, Hfs. subst r'.
  assert (∀ k v, v ≠ Dir → fs st1 !! k = Some v →
            fs st !! k = Some v ∨ fs st1' !! k = Some v) as Hfs'.
  { intros k v Hv H. destruct (Hfs k v Hv H) as [H'|H']; [left|by right].
    by eapply make_dir_state_file. }
  destruct r as [o|e].
  - assert (o_train_val_test_filenames o
            = features_filename (head_folder w a) <$> split_names) as Hf
      by (by eapply (organize_run_filenames w a st)).
    destruct (feature_extraction_disk w a (set_defaults a) (head_folder w a) o st1 st1' Hf)
      as [Hr Hk].
    split; [exact Hr|]. intros k v Hv H.
    destruct (Hk k) as [[Hsame Hsame']|Hnew].
    + rewrite Hsame in H. rewrite Hsame'. by apply Hfs'.
    + right. by rewrite <- Hnew.
  - destruct (bool_decide _); (split; [reflexivity|]); cbn [snd fs]; exact Hfs'.
Qed.

Lemma existing_folder_is_reused_silently_witness :
  fs (main (demo_world "y" reverse all_succeed) script_args
        (main (demo_world "y" reverse all_succeed)
              (with_noise script_args Py.False_) projects_only).2).2
    !! run_path (curr_folder (demo_world "y" reverse all_succeed) script_args)
                "/features_log.csv"
  = fs (main (demo_world "y" reverse all_succeed) script_args projects_only).2
      !! run_path (curr_folder (demo_world "y" reverse all_succeed) script_args)
                  "/features_log.csv".
Proof.
  destruct (existing_folder_is_reused_silently (demo_world "y" reverse all_succeed)
              script_args projects_only
              (main (demo_world "y" reverse all_succeed)
                    (with_noise script_args Py.False_) projects_only).2) as [_ H].
  - reflexivity.
  - reflexivity.
  - intros f Hf. vm_compute in Hf. discriminate Hf.
  - vm_compute. reflexivity.
  - intros f Hf. vm_compute in Hf. by injection Hf as <-.
  - destruct (fs (main (demo_world "y" reverse all_succeed) script_args projects_only).2
                !! run_path (curr_folder (demo_world "y" reverse all_succeed) script_args)
                            "/features_log.csv") as [[|rows|sa]|] eqn:Hv.
    + vm_compute in Hv. discriminate Hv.
    + destruct (H (run_path (curr_folder (demo_world "y" reverse all_succeed)
                               script_args) "/features_log.csv") (Csv rows))
        as [Hold|Hnew]; [discriminate|exact Hv| |].
      * vm_compute in Hold. discriminate Hold.
      * exact Hnew.
    + vm_compute in Hv. discriminate Hv.
    + vm_compute in Hv. discriminate Hv.
Defined.
